(** * Metal binary-operation dispatch (mlx/backend/metal/binary.cpp)

    A shallow embedding of the variant-key builder [get_kernel_name] and
    of the dispatcher [binary_op_gpu_inplace] with its wrappers, together
    with the properties of the dispatch engine that are checked against
    them.

    Conventions.
    - [int] and [size_t] values are integers of [Z]; conversions between
      the two and unsigned arithmetic are written with explicit
      wrap-around ([to_int32], [to_size_t]).
    - Functions that binary.cpp calls but that live in other files
      (the classifier, the stride collapser, the kernel provider, the
      block-size heuristics, ...) are the methods of the class [Backend].
    - The command encoder of a stream is the list of commands it has
      received, oldest first. *)

From Stdlib Require Import ZArith Lia Ascii String DecimalString DecimalZ.
From stdpp Require Import base option list strings gmap.

Local Open Scope Z_scope.

(** ** Machine integers *)

Definition INT32_MAX : Z := 2147483647.
Definition UINT32_MAX : Z := 4294967295.

(** Conversion to [size_t] (64-bit unsigned) and to [int] / [int64_t]
    (two's complement). *)
Definition to_size_t (x : Z) : Z := x mod 2 ^ 64.
Definition to_int32 (x : Z) : Z := (x + 2 ^ 31) mod 2 ^ 32 - 2 ^ 31.
Definition to_int64 (x : Z) : Z := (x + 2 ^ 63) mod 2 ^ 64 - 2 ^ 63.

(** [std::to_string(int)]: decimal digits, with a leading minus sign for
    negative values. *)
Definition to_string (x : Z) : string := NilEmpty.string_of_int (Z.to_int x).

(** Modelled from the spec: [concatenate] is declared in
    mlx/backend/metal/utils.h, which is not part of the sources at hand;
    the key is built by appending the pieces to the accumulator, in
    order. *)
Definition concatenate (acc : string) (parts : list string) : string :=
  fold_left String.append parts acc.

(** ** Data model *)

Inductive BinaryOpType : Type :=
| ScalarScalar
| ScalarVector
| VectorScalar
| VectorVector
| General.

#[global] Instance BinaryOpType_eq_dec : EqDecision BinaryOpType.
Proof. solve_decision. Defined.

Abbreviation Shape := (list Z).
Abbreviation Strides := (list Z).

(** The accessors of [array] that the dispatcher reads. *)
Record array (Dtype : Type) : Type := mk_array {
  shape : Shape;
  strides : Strides;
  dtype : Dtype;
  size : Z;
  data_size : Z
}.
Arguments mk_array {Dtype} _ _ _ _ _.
Arguments shape {Dtype} _.
Arguments strides {Dtype} _.
Arguments dtype {Dtype} _.
Arguments size {Dtype} _.
Arguments data_size {Dtype} _.

(** ** Device state and effects *)

Record MTLSize : Type := MTL_Size { width : Z; height : Z; depth : Z }.

(** What a command encoder can be asked to do. *)
Inductive Command (Dtype Kernel : Type) : Type :=
| SetComputePipelineState (kernel : Kernel)
| SetInputArray (a : array Dtype) (idx : Z)
| SetOutputArray (a : array Dtype) (idx : Z)
| SetVectorBytes (vec : list Z) (idx : Z)
| SetBytesInt (v : Z) (idx : Z)
| SetBytesInt64 (v : Z) (idx : Z)
| DispatchThreads (grid_dims group_dims : MTLSize).
Arguments SetComputePipelineState {Dtype Kernel} _.
Arguments SetInputArray {Dtype Kernel} _ _.
Arguments SetOutputArray {Dtype Kernel} _ _.
Arguments SetVectorBytes {Dtype Kernel} _ _.
Arguments SetBytesInt {Dtype Kernel} _ _.
Arguments SetBytesInt64 {Dtype Kernel} _ _.
Arguments DispatchThreads {Dtype Kernel} _ _.

(** The metal device: the kernel provider's state and one command
    encoder per stream index. *)
Record Device (Dtype Kernel KernelLibrary : Type) : Type := mk_Device {
  library : KernelLibrary;
  encoders : gmap Z (list (Command Dtype Kernel))
}.
Arguments mk_Device {Dtype Kernel KernelLibrary} _ _.
Arguments library {Dtype Kernel KernelLibrary} _.
Arguments encoders {Dtype Kernel KernelLibrary} _.

Record Stream : Type := mk_Stream { index : Z }.

(** How a call ends: it returns, throws [std::runtime_error], stops on a
    failed [assert], or has no defined behaviour (vector access out of
    range, division by zero). *)
Inductive outcome (A : Type) : Type :=
| Returned (x : A)
| Thrown (what : string)
| Aborted
| Undefined.
Arguments Returned {A} _.
Arguments Thrown {A} _.
Arguments Aborted {A}.
Arguments Undefined {A}.

Module Eff.
Section Eff.
Context {St : Type}.

Definition M (A : Type) : Type := St -> outcome A * St.

Definition ret {A} (x : A) : M A := fun d => (Returned x, d).

Definition bind {A B} (m : M A) (k : A -> M B) : M B :=
  fun d =>
    match m d with
    | (Returned x, d') => k x d'
    | (Thrown what, d') => (Thrown what, d')
    | (Aborted, d') => (Aborted, d')
    | (Undefined, d') => (Undefined, d')
    end.

Definition throw {A} (what : string) : M A := fun d => (Thrown what, d).
Definition abort {A} : M A := fun d => (Aborted, d).
Definition undefined {A} : M A := fun d => (Undefined, d).

(** [v[i]] on a [std::vector]. *)
Definition vector_at {A} (v : list A) (i : nat) : M A :=
  match v !! i with
  | Some x => ret x
  | None => undefined
  end.

(** Unsigned division. *)
Definition div_size_t (x y : Z) : M Z :=
  if y =? 0 then undefined else ret (x / y).
End Eff.
End Eff.
Import Eff.

Notation "x <- c1 ;; c2" := (bind c1 (fun x => c2))
  (at level 100, c1 at next level, right associativity).
Notation "c1 ;; c2" := (bind c1 (fun _ => c2))
  (at level 100, right associativity).

(** Modelled from the spec: [ceildiv] is declared in
    mlx/backend/metal/utils.h, which is not part of the sources at hand;
    it is the ceiling division, computed as binary.cpp itself computes it
    for [dim0], in the unsigned type of its first argument. *)
Definition ceildiv {St} (a b : Z) : @M St Z :=
  div_size_t (to_size_t (a + to_size_t b - 1)) (to_size_t b).

(** ** BitwiseBinary *)

Inductive BitwiseBinary_Op : Type := And | Or | Xor | LeftShift | RightShift.

Record BitwiseBinary : Type := mk_BitwiseBinary { op_ : BitwiseBinary_Op }.

(** ** Collaborators declared outside binary.cpp

    The functions of the backend that binary.cpp calls and does not
    define, over the element types, compiled kernels and kernel-provider
    states of the backend. *)
Class Backend (Dtype Kernel KernelLibrary : Type) : Type := {
  (** the element-type tag of an array (utils.h) *)
  type_to_name : array Dtype -> string;
  (** the classifier *)
  get_binary_op_type : array Dtype -> array Dtype -> BinaryOpType;
  (** for three arrays the collapser returns the common shape and one
      stride vector per array ([strides[0]], [strides[1]], [strides[2]]) *)
  collapse_contiguous_dims :
    array Dtype -> array Dtype -> array Dtype ->
    Shape * (Strides * Strides * Strides);
  get_work_per_thread : Dtype -> Z -> Z;
  (** the kernel provider, which may compile and cache *)
  get_binary_kernel :
    string -> Dtype -> Dtype -> string -> KernelLibrary ->
    Kernel * KernelLibrary;
  get_binary_two_kernel :
    string -> Dtype -> Dtype -> string -> KernelLibrary ->
    Kernel * KernelLibrary;
  maxTotalThreadsPerThreadgroup : Kernel -> Z;
  get_block_dims : Z -> Z -> Z -> MTLSize;
  get_2d_grid_dims : Shape -> Strides -> Z -> MTLSize;
  (** gives the output its storage *)
  set_binary_op_output_data :
    array Dtype -> array Dtype -> array Dtype -> BinaryOpType -> array Dtype;
  (** [out.primitive().stream()] *)
  stream_of : array Dtype -> Stream;
  (** the primitive's [name()] *)
  name : BitwiseBinary -> string;
  (** whether [assert] is compiled out *)
  NDEBUG : bool
}.

Section Metal.

Context {Dtype Kernel KernelLibrary : Type}.
Context {backend : Backend Dtype Kernel KernelLibrary}.

Abbreviation array := (array Dtype).
Abbreviation Command := (Command Dtype Kernel).
Abbreviation Device := (Device Dtype Kernel KernelLibrary).
Abbreviation M := (@M Device).

(** *** get_kernel_name *)

Definition get_kernel_name (bopt : BinaryOpType) (op : string)
    (a : array) (large : bool) (ndim : Z) (work_per_thread : Z)
    : string :=
  let kname :=
    match bopt with
    | ScalarScalar => "ss"
    | ScalarVector => "sv"
    | VectorScalar => "vs"
    | VectorVector => "vv"
    | General =>
        let kname := "g" in
        let kname :=
          if ndim <=? 3 then kname +:+ to_string ndim
          else concatenate kname ["n"; to_string work_per_thread] in
        if large then kname +:+ "large" else kname
    end in
  let kname :=
    if bool_decide (bopt <> General) && bool_decide (bopt <> ScalarScalar)
    then
      if large then kname +:+ "2"
      else if 1 <? work_per_thread then kname +:+ "n"
      else kname
    else kname in
  concatenate kname ["_"; op; type_to_name a].

(** *** The command encoder *)

Definition encoder (d : Device) (idx : Z) : list Command :=
  default [] (encoders d !! idx).

Definition encode (idx : Z) (c : Command) : M unit :=
  fun d =>
    (Returned tt,
     mk_Device (library d) (<[idx := encoder d idx ++ [c]]> (encoders d))).

Definition set_compute_pipeline_state (s : Z) (kernel : Kernel) : M unit :=
  encode s (SetComputePipelineState kernel).
Definition set_input_array (s : Z) (a : array) (idx : Z) : M unit :=
  encode s (SetInputArray a idx).
Definition set_output_array (s : Z) (a : array) (idx : Z) : M unit :=
  encode s (SetOutputArray a idx).
Definition set_vector_bytes (s : Z) (vec : list Z) (idx : Z) : M unit :=
  encode s (SetVectorBytes vec idx).
(** [set_bytes<int>] and [set_bytes<int64_t>] convert their argument. *)
Definition set_bytes_int (s : Z) (v : Z) (idx : Z) : M unit :=
  encode s (SetBytesInt (to_int32 v) idx).
Definition set_bytes_int64 (s : Z) (v : Z) (idx : Z) : M unit :=
  encode s (SetBytesInt64 (to_int64 v) idx).
Definition dispatch_threads (s : Z) (grid_dims group_dims : MTLSize)
    : M unit :=
  encode s (DispatchThreads grid_dims group_dims).

(** A kernel lookup: the provider may compile and cache. *)
Definition resolve (get : KernelLibrary -> Kernel * KernelLibrary)
    : M Kernel :=
  fun d =>
    let '(kernel, lib) := get (library d) in
    (Returned kernel, mk_Device lib (encoders d)).

Definition assert (c : bool) : M unit :=
  if NDEBUG || c then ret tt else abort.

(** *** binary_op_gpu_inplace *)

(** The lambda [maybe_collapse]. *)
Definition maybe_collapse (bopt : BinaryOpType) (a b out : array)
    : Shape * Strides * Strides * Strides :=
  if bool_decide (bopt = General) then
    let '(shape, strides) := collapse_contiguous_dims a b out in
    (shape, strides.1.1, strides.1.2, strides.2)
  else
    ([], [], [], []).

(** The choice of [large] and [work_per_thread]. *)
Definition index_width (bopt : BinaryOpType) (a b out : array) : bool * Z :=
  if bool_decide (bopt = General) then
    let large :=
      (INT32_MAX <? data_size a) || (INT32_MAX <? data_size b)
      || (INT32_MAX <? size out) in
    (large, if large then 4 else 2)
  else
    let large := UINT32_MAX <? data_size out in
    (large, get_work_per_thread (dtype a) (data_size out)).

(** [shape[i]], read where the index is known to be in range. *)
Definition shape_at (shape : Shape) (i : Z) : Z :=
  default 0 (shape !! Z.to_nat i).

(** [shape_] is the local [shape] of the source (the collapsed shape);
    [shape out] is the accessor. *)
Definition binary_op_gpu_inplace (inputs outputs : list array)
    (op : string) (s : Stream) : M unit :=
  a <- vector_at inputs 0 ;;
  b <- vector_at inputs 1 ;;
  let bopt := get_binary_op_type a b in
  out <- vector_at outputs 0 ;;
  if size out =? 0 then ret tt else
  let '(shape_, strides_a, strides_b, strides_out) :=
    maybe_collapse bopt a b out in
  let ndim := Z.of_nat (length shape_) in
  let '(large, work_per_thread) := index_width bopt a b out in
  let kernel_name :=
    get_kernel_name bopt op a large (to_int32 ndim)
      work_per_thread in
  kernel <-
    (if bool_decide (length outputs = 2%nat)
     then resolve (get_binary_two_kernel kernel_name (dtype a) (dtype out) op)
     else resolve (get_binary_kernel kernel_name (dtype a) (dtype out) op)) ;;
  set_compute_pipeline_state (index s) kernel ;;
  let arg_idx := 0 in
  set_input_array (index s) a arg_idx ;;
  let arg_idx := arg_idx + 1 in
  set_input_array (index s) b arg_idx ;;
  let arg_idx := arg_idx + 1 in
  set_output_array (index s) out arg_idx ;;
  let arg_idx := arg_idx + 1 in
  arg_idx <-
    (if bool_decide (length outputs = 2%nat)
     then out1 <- vector_at outputs 1 ;;
          set_output_array (index s) out1 arg_idx ;;
          ret (arg_idx + 1)
     else ret arg_idx) ;;
  let thread_group_size := maxTotalThreadsPerThreadgroup kernel in
  if bool_decide (bopt = General) then
    let dim0 := if 0 <? ndim then to_size_t (shape_at shape_ (ndim - 1)) else 1 in
    let dim1 := if 1 <? ndim then to_size_t (shape_at shape_ (ndim - 2)) else 1 in
    rest <- div_size_t (size out) (to_size_t (dim0 * dim1)) ;;
    dim0 <-
      (if 3 <? ndim then
         set_vector_bytes (index s) shape_ arg_idx ;;
         set_vector_bytes (index s) strides_a (arg_idx + 1) ;;
         set_vector_bytes (index s) strides_b (arg_idx + 2) ;;
         set_bytes_int (index s) ndim (arg_idx + 3) ;;
         div_size_t (to_size_t (dim0 + to_size_t work_per_thread - 1))
           (to_size_t work_per_thread)
       else
         set_vector_bytes (index s) strides_a arg_idx ;;
         set_vector_bytes (index s) strides_b (arg_idx + 1) ;;
         ret dim0) ;;
    if bool_decide (thread_group_size <> 1024) then
      throw "[Metal::binary] Must use 1024 sized block"
    else
      let group_dims := get_block_dims dim0 dim1 rest in
      let grid_dims := MTL_Size dim0 dim1 rest in
      dispatch_threads (index s) grid_dims group_dims
  else
    nthreads <- ceildiv (data_size out) work_per_thread ;;
    let thread_group_size :=
      if nthreads <? thread_group_size then nthreads else thread_group_size in
    let group_dims := MTL_Size thread_group_size 1 1 in
    if large then
      set_bytes_int64 (index s) (data_size out) arg_idx ;;
      let grid_dims :=
        get_2d_grid_dims (shape out) (strides out) work_per_thread in
      dispatch_threads (index s) grid_dims group_dims
    else
      set_bytes_int (index s) (data_size out) arg_idx ;;
      let grid_dims := MTL_Size nthreads 1 1 in
      dispatch_threads (index s) grid_dims group_dims.

(** *** The wrappers for a single output *)

(** [binary_op_gpu_inplace(inputs, out, op, s)] *)
Definition binary_op_gpu_inplace_out (inputs : list array) (out : array)
    (op : string) (s : Stream) : M unit :=
  let outputs := [out] in
  binary_op_gpu_inplace inputs outputs op s.

(** [binary_op_gpu(inputs, out, op, s)]; [set_binary_op_output_data]
    gives [out] its storage. *)
Definition binary_op_gpu_stream (inputs : list array) (out : array)
    (op : string) (s : Stream) : M unit :=
  assert (bool_decide (length inputs = 2%nat)) ;;
  a <- vector_at inputs 0 ;;
  b <- vector_at inputs 1 ;;
  let bopt := get_binary_op_type a b in
  let out := set_binary_op_output_data a b out bopt in
  binary_op_gpu_inplace_out inputs out op s.

(** [binary_op_gpu(inputs, out, op)] *)
Definition binary_op_gpu (inputs : list array) (out : array) (op : string)
    : M unit :=
  let s := stream_of out in
  binary_op_gpu_stream inputs out op s.

(** *** BitwiseBinary::eval_gpu *)

Definition eval_gpu (this : BitwiseBinary) (inputs : list array)
    (out : array) : M unit :=
  match op_ this with
  | And => binary_op_gpu inputs out (name this)
  | Or => binary_op_gpu inputs out (name this)
  | Xor => binary_op_gpu inputs out (name this)
  | LeftShift => binary_op_gpu inputs out (name this)
  | RightShift => binary_op_gpu inputs out (name this)
  end.

(** *** The wrappers for several outputs *)

(** [binary_op_gpu(inputs, outputs, op, s)]; the two calls of
    [set_binary_op_output_data] write [outputs[0]] and [outputs[1]]. *)
Definition binary_op_gpu_outputs_stream (inputs outputs : list array)
    (op : string) (s : Stream) : M unit :=
  assert (bool_decide (length inputs = 2%nat)) ;;
  a <- vector_at inputs 0 ;;
  b <- vector_at inputs 1 ;;
  let bopt := get_binary_op_type a b in
  out0 <- vector_at outputs 0 ;;
  let outputs := <[0%nat := set_binary_op_output_data a b out0 bopt]> outputs in
  out1 <- vector_at outputs 1 ;;
  let outputs := <[1%nat := set_binary_op_output_data a b out1 bopt]> outputs in
  binary_op_gpu_inplace inputs outputs op s.

(** [binary_op_gpu(inputs, outputs, op)] *)
Definition binary_op_gpu_outputs (inputs outputs : list array) (op : string)
    : M unit :=
  out0 <- vector_at outputs 0 ;;
  let s := stream_of out0 in
  binary_op_gpu_outputs_stream inputs outputs op s.

(** *** The macros BINARY_GPU and BINARY_GPU_MULTI

    [func_name] is what the primitive's [name()] returns. *)

Definition BINARY_GPU (func_name : string) (inputs : list array)
    (out : array) : M unit :=
  binary_op_gpu inputs out func_name.

Definition BINARY_GPU_MULTI (func_name : string) (inputs outputs : list array)
    : M unit :=
  binary_op_gpu_outputs inputs outputs func_name.

End Metal.

(** ** Reading a command encoder *)

Section Log.

Context {Dtype Kernel KernelLibrary : Type}.

(** The device after the encoder of stream [idx] has received [cs]. *)
Definition emit (idx : Z) (cs : list (Command Dtype Kernel))
    (d : Device Dtype Kernel KernelLibrary)
    : Device Dtype Kernel KernelLibrary :=
  mk_Device (library d) (<[idx := encoder d idx ++ cs]> (encoders d)).

(** The kernel submissions of a log, as (grid, thread group). *)
Definition submission (c : Command Dtype Kernel)
    : option (MTLSize * MTLSize) :=
  match c with
  | DispatchThreads grid_dims group_dims => Some (grid_dims, group_dims)
  | _ => None
  end.

Definition submissions (log : list (Command Dtype Kernel))
    : list (MTLSize * MTLSize) :=
  omap submission log.

(** The argument bindings of a log. *)
Definition is_binding (c : Command Dtype Kernel) : bool :=
  match c with
  | SetInputArray _ _ | SetOutputArray _ _ | SetVectorBytes _ _
  | SetBytesInt _ _ | SetBytesInt64 _ _ => true
  | SetComputePipelineState _ | DispatchThreads _ _ => false
  end.

Definition bindings (log : list (Command Dtype Kernel))
    : list (Command Dtype Kernel) :=
  filter (fun c => is_binding c = true) log.

End Log.

(** ** A concrete backend, for examples

    Element types [float16] and [float32]; a kernel is its name with the
    thread-group limit of the hardware, and the provider remembers the
    names it has compiled. The classifier looks at the storage element
    counts, the collapser merges nothing. *)
Module Sample.

Inductive Dtype : Type := float16 | float32.

Definition itemsize (t : Dtype) : Z :=
  match t with float16 => 2 | float32 => 4 end.

Record Library : Type := mk_Library { limit : Z; compiled : list string }.

Definition Kernel : Type := string * Z.

Definition compile (kernel_name : string) (lib : Library)
    : Kernel * Library :=
  ((kernel_name, limit lib),
   mk_Library (limit lib)
     (if bool_decide (kernel_name ∈ compiled lib) then compiled lib
      else kernel_name :: compiled lib)).

Definition contiguous (a : array Dtype) : bool :=
  data_size a =? size a.

Definition classify (a b : array Dtype) : BinaryOpType :=
  if (data_size a =? 1) && (data_size b =? 1) then ScalarScalar
  else if (data_size a =? 1) && contiguous b then ScalarVector
  else if (data_size b =? 1) && contiguous a then VectorScalar
  else if contiguous a && contiguous b
          && bool_decide (strides a = strides b) then VectorVector
  else General.

#[export] Instance backend : Backend Dtype Kernel Library := {|
  type_to_name a :=
    match dtype a with float16 => "float16" | float32 => "float32" end;
  get_binary_op_type := classify;
  collapse_contiguous_dims a b out :=
    (shape out, (strides a, strides b, strides out));
  get_work_per_thread t n :=
    if n <? 65536 then 1 else Z.max 1 (8 / itemsize t);
  get_binary_kernel kernel_name _ _ _ := compile kernel_name;
  get_binary_two_kernel kernel_name _ _ _ := compile kernel_name;
  maxTotalThreadsPerThreadgroup kernel := kernel.2;
  get_block_dims dim0 dim1 rest :=
    MTL_Size (Z.min dim0 32) (Z.min dim1 32) 1;
  get_2d_grid_dims shape strides work_per_thread :=
    MTL_Size UINT32_MAX (foldr Z.mul 1 shape / UINT32_MAX + 1) 1;
  set_binary_op_output_data a b out bopt :=
    mk_array (shape out) (strides out) (dtype out) (size out)
      match bopt with
      | ScalarScalar => 1
      | ScalarVector => data_size b
      | VectorScalar | VectorVector => data_size a
      | General => size out
      end;
  stream_of _ := mk_Stream 0;
  name _ := "BitwiseBinary";
  NDEBUG := false
|}.

(** The same backend in a build without assertions. *)
Definition backend_ndebug : Backend Dtype Kernel Library := {|
  type_to_name := @type_to_name _ _ _ backend;
  get_binary_op_type := @get_binary_op_type _ _ _ backend;
  collapse_contiguous_dims := @collapse_contiguous_dims _ _ _ backend;
  get_work_per_thread := @get_work_per_thread _ _ _ backend;
  get_binary_kernel := @get_binary_kernel _ _ _ backend;
  get_binary_two_kernel := @get_binary_two_kernel _ _ _ backend;
  maxTotalThreadsPerThreadgroup := @maxTotalThreadsPerThreadgroup _ _ _ backend;
  get_block_dims := @get_block_dims _ _ _ backend;
  get_2d_grid_dims := @get_2d_grid_dims _ _ _ backend;
  set_binary_op_output_data := @set_binary_op_output_data _ _ _ backend;
  stream_of := @stream_of _ _ _ backend;
  name := @name _ _ _ backend;
  NDEBUG := true
|}.

(** A device whose kernels admit [limit] threads per group, with no
    kernel compiled and no command encoded yet. *)
Definition device (limit : Z) : Device Dtype Kernel Library :=
  mk_Device (mk_Library limit []) ∅.

(** A contiguous [float32] array of the given shape. *)
Fixpoint row_strides (shape : Shape) : Strides :=
  match shape with
  | [] => []
  | _ :: rest => foldr Z.mul 1 rest :: row_strides rest
  end.

Definition dense (shape : Shape) : array Dtype :=
  mk_array shape (row_strides shape) float32
    (foldr Z.mul 1 shape) (foldr Z.mul 1 shape).

(** A single [float32] element broadcast to the given shape. *)
Definition broadcast_scalar (shape : Shape) : array Dtype :=
  mk_array shape (map (fun _ => 0) shape) float32 (foldr Z.mul 1 shape) 1.

(** A transposed view of a dense matrix. *)
Definition transposed (rows cols : Z) : array Dtype :=
  mk_array [rows; cols] [1; rows] float32 (rows * cols) (rows * cols).

Definition stream0 : Stream := mk_Stream 0.
Definition scalar33 : array Dtype := broadcast_scalar [3; 3].
Definition matrix : array Dtype := dense [2; 3].
Definition matrix_t : array Dtype := transposed 2 3.
Definition vector (n : Z) : array Dtype := dense [n].
Definition tensor5 : array Dtype := dense [2; 2; 2; 2; 6].
Definition tensor5_t : array Dtype :=
  mk_array [2; 2; 2; 2; 6] [1; 2; 4; 8; 16] float32 96 96.

End Sample.

(** ** The fields a variant key encodes (specification side) *)

Definition category_tag (bopt : BinaryOpType) : string :=
  match bopt with
  | ScalarScalar => "ss"
  | ScalarVector => "sv"
  | VectorScalar => "vs"
  | VectorVector => "vv"
  | General => "g"
  end.

(** The width suffix: [2] when wide, [n] when narrow with more than one
    element per thread. *)
Definition width_suffix (large : bool) (work_per_thread : Z) : string :=
  if large then "2" else if 1 <? work_per_thread then "n" else "".

(** What of (category, rank, width, work-per-thread) can be read back
    from a key: the category; for [General] the rank when at most 3 and
    the work-per-thread otherwise, and the width; for the three
    vector categories the width and, when narrow, whether a thread covers
    more than one element; nothing more for [ScalarScalar]. *)
Definition encoded_fields (bopt : BinaryOpType) (large : bool)
    (ndim work_per_thread : Z) : BinaryOpType * (Z + Z) * bool * bool :=
  match bopt with
  | ScalarScalar => (ScalarScalar, inl 0, false, false)
  | General =>
      (General, if ndim <=? 3 then inl ndim else inr work_per_thread,
       large, false)
  | _ => (bopt, inl 0, large, negb large && (1 <? work_per_thread))
  end.

(** The part of the key before the underscore, from the encoded fields. *)
Definition render_fields (f : BinaryOpType * (Z + Z) * bool * bool)
    : string :=
  let '(bopt, rank, large, many) := f in
  match bopt with
  | ScalarScalar => "ss"
  | General =>
      "g" +:+
      match rank with
      | inl ndim => to_string ndim
      | inr work_per_thread => "n" +:+ to_string work_per_thread
      end +:+ (if large then "large" else "")
  | _ =>
      category_tag bopt +:+
      (if large then "2" else if many then "n" else "")
  end.

(** Characters of a decimal numeral, and characters other than the
    separator. *)
Definition numeric (c : ascii) : bool :=
  match Ascii.is_nat c with
  | Some _ => true
  | None => bool_decide (c = "-"%char)
  end.

Definition not_separator (c : ascii) : bool := negb (Ascii.eqb c "_").

Fixpoint string_all (P : ascii -> bool) (s : string) : bool :=
  match s with
  | EmptyString => true
  | String c s' => P c && string_all P s'
  end.

(** The string is empty or starts with a character outside [P]. *)
Definition head_outside (P : ascii -> bool) (s : string) : bool :=
  match s with
  | EmptyString => true
  | String c _ => negb (P c)
  end.

(** ** What a dispatch is expected to do (specification side) *)

(** The least integer that is not below [a / b]. *)
Definition ceiling (a b : Z) : Z := - (- a / b).

(** Last and second-to-last dimension of a shape, 1 when absent. *)
Definition last_dim (shape : Shape) : Z :=
  match rev shape with
  | d :: _ => d
  | [] => 1
  end.

Definition second_last_dim (shape : Shape) : Z :=
  match rev shape with
  | _ :: d :: _ => d
  | _ => 1
  end.

(** The grid of the General path: the last dimension (divided by the
    work-per-thread, rounding up, when the rank exceeds 3), the
    second-to-last dimension, and the number of elements divided by the
    product of the last two dimensions. *)
Definition general_grid (shape : Shape) (size work_per_thread : Z)
    : MTLSize :=
  let dim0 := last_dim shape in
  let dim1 := second_last_dim shape in
  let rest := size / (dim0 * dim1) in
  let dim0 :=
    if 3 <? Z.of_nat (length shape) then ceiling dim0 work_per_thread
    else dim0 in
  MTL_Size dim0 dim1 rest.

(** Dimensions that an [int] shape of a non-empty array can hold. *)
Definition positive_dims (shape : Shape) : Prop :=
  Forall (fun x => 0 < x < 2 ^ 31) shape.

(** The same, as a test. *)
Definition positive_dimsb (shape : Shape) : bool :=
  forallb (fun x => (0 <? x) && (x <? 2 ^ 31)) shape.

Section Expected.

Context {Dtype Kernel KernelLibrary : Type}.
Context {backend : Backend Dtype Kernel KernelLibrary}.

(** The collapsed shape a dispatch works with. *)
Definition collapsed_shape (a b out : array Dtype) : Shape :=
  (maybe_collapse (get_binary_op_type a b) a b out).1.1.1.

(** The kernel lookup of a dispatch: the variant key is built from the
    category, the collapsed rank and the chosen width and
    work-per-thread. *)
Definition requested_kernel (a b out : array Dtype)
    (outputs : list (array Dtype)) (op : string)
    : KernelLibrary -> Kernel * KernelLibrary :=
  let bopt := get_binary_op_type a b in
  let ndim := Z.of_nat (length (collapsed_shape a b out)) in
  let kernel_name :=
    get_kernel_name bopt op a (index_width bopt a b out).1 (to_int32 ndim)
      (index_width bopt a b out).2 in
  if bool_decide (length outputs = 2%nat)
  then get_binary_two_kernel kernel_name (dtype a) (dtype out) op
  else get_binary_kernel kernel_name (dtype a) (dtype out) op.

(** Operand a, operand b and the output in slots 0, 1 and 2; the second
    output in slot 3 when the dispatch has two outputs. *)
Definition array_bindings (a b : array Dtype) (outputs : list (array Dtype))
    : list (Command Dtype Kernel) :=
  match outputs with
  | [] => []
  | [out; out1] =>
      [SetInputArray a 0; SetInputArray b 1; SetOutputArray out 2;
       SetOutputArray out1 3]
  | out :: _ =>
      [SetInputArray a 0; SetInputArray b 1; SetOutputArray out 2]
  end.

(** The bindings of the General path from slot [k] on: shape, strides of
    a, strides of b and the rank when the rank exceeds 3, the two stride
    vectors otherwise. *)
Definition general_bindings (shape_ : Shape) (strides_a strides_b : Strides)
    (k : Z) : list (Command Dtype Kernel) :=
  let ndim := Z.of_nat (length shape_) in
  if 3 <? ndim then
    [SetVectorBytes shape_ k; SetVectorBytes strides_a (k + 1);
     SetVectorBytes strides_b (k + 2); SetBytesInt (to_int32 ndim) (k + 3)]
  else
    [SetVectorBytes strides_a k; SetVectorBytes strides_b (k + 1)].

(** The binding of the compact path in slot [k]: the storage element
    count of the output, 64 bits wide when [large]. *)
Definition compact_bindings (large : bool) (out : array Dtype) (k : Z)
    : list (Command Dtype Kernel) :=
  if large then [SetBytesInt64 (to_int64 (data_size out)) k]
  else [SetBytesInt (to_int32 (data_size out)) k].

(** The width, the work-per-thread, the collapsed strides and the kernel
    of a dispatch. *)
Definition dispatch_large (a b out : array Dtype) : bool :=
  (index_width (get_binary_op_type a b) a b out).1.

Definition dispatch_work_per_thread (a b out : array Dtype) : Z :=
  (index_width (get_binary_op_type a b) a b out).2.

Definition collapsed_strides_a (a b out : array Dtype) : Strides :=
  (maybe_collapse (get_binary_op_type a b) a b out).1.1.2.

Definition collapsed_strides_b (a b out : array Dtype) : Strides :=
  (maybe_collapse (get_binary_op_type a b) a b out).1.2.

Definition dispatch_kernel (a b out : array Dtype)
    (outputs : list (array Dtype)) (op : string)
    (d : Device Dtype Kernel KernelLibrary) : Kernel :=
  (requested_kernel a b out outputs op (library d)).1.

(** The bindings that follow the arrays, from slot [k] on. *)
Definition later_bindings (a b out : array Dtype) (k : Z)
    : list (Command Dtype Kernel) :=
  if bool_decide (get_binary_op_type a b = General)
  then general_bindings (collapsed_shape a b out)
         (collapsed_strides_a a b out) (collapsed_strides_b a b out) k
  else compact_bindings (dispatch_large a b out) out k.

(** The divisions of a dispatch are defined: the collapsed dimensions
    are positive on the General path, the work-per-thread is a positive
    [int] on the other path. *)
Definition well_defined (a b out : array Dtype) : Prop :=
  let bopt := get_binary_op_type a b in
  if bool_decide (bopt = General) then positive_dims (collapsed_shape a b out)
  else 0 < dispatch_work_per_thread a b out < 2 ^ 31.

(** The same, as a test. *)
Definition well_definedb (a b out : array Dtype) : bool :=
  if bool_decide (get_binary_op_type a b = General)
  then positive_dimsb (collapsed_shape a b out)
  else (0 <? dispatch_work_per_thread a b out)
       && (dispatch_work_per_thread a b out <? 2 ^ 31).

End Expected.

(** ** Further readings of keys, logs and grids (specification side) *)

(** A key cut at its first separator. *)
Fixpoint before_separator (s : string) : string :=
  match s with
  | EmptyString => EmptyString
  | String c s' =>
      if Ascii.eqb c "_" then EmptyString else String c (before_separator s')
  end.

Fixpoint after_separator (s : string) : string :=
  match s with
  | EmptyString => EmptyString
  | String c s' => if Ascii.eqb c "_" then s' else after_separator s'
  end.

(** The variant part of the key of a General dispatch: the rank up to
    3, [n2] or [n4] above, and [large] when wide. *)
Definition general_key_prefix (rank : Z) (large : bool) : string :=
  "g"
  +:+ (if rank <=? 3 then to_string rank else if large then "n4" else "n2")
  +:+ (if large then "large" else "").

(** The number of threads of a grid. *)
Definition volume (g : MTLSize) : Z := width g * height g * depth g.

Section LogReadings.

Context {Dtype Kernel KernelLibrary : Type}.

(** The slot of an argument binding. *)
Definition slot (c : Command Dtype Kernel) : option Z :=
  match c with
  | SetInputArray _ idx | SetOutputArray _ idx | SetVectorBytes _ idx
  | SetBytesInt _ idx | SetBytesInt64 _ idx => Some idx
  | SetComputePipelineState _ | DispatchThreads _ _ => None
  end.

(** Between [d] and [d'] the encoder of stream [idx] has received [cmds]
    and no other encoder has changed. *)
Definition effect (idx : Z) (d d' : Device Dtype Kernel KernelLibrary)
    (cmds : list (Command Dtype Kernel)) : Prop :=
  encoder d' idx = encoder d idx ++ cmds
  /\ forall j, j <> idx -> encoder d' j = encoder d j.

(** A computation that writes to stream [idx] only and submits nothing. *)
Definition quiet (idx : Z) {A}
    (m : @M (Device Dtype Kernel KernelLibrary) A) : Prop :=
  forall d, exists cmds,
    effect idx d (m d).2 cmds /\ submissions cmds = [].

(** A computation that writes to stream [idx] only and submits at most
    one launch, and none unless it returns. *)
Definition launches_last (idx : Z)
    (m : @M (Device Dtype Kernel KernelLibrary) unit) : Prop :=
  forall d, exists cmds,
    effect idx d (m d).2 cmds
    /\ (submissions cmds = []
        \/ ((m d).1 = Returned tt /\ length (submissions cmds) = 1%nat)).

(** Run from [d], the computation only appends to the encoder of stream
    [idx]: what was there stays, the other encoders are unchanged, at
    most one launch is added, and none unless the computation returns. *)
Definition stays_on_stream (idx : Z)
    (m : @M (Device Dtype Kernel KernelLibrary) unit)
    (d : Device Dtype Kernel KernelLibrary) : Prop :=
  exists r d' cmds,
    m d = (r, d')
    /\ encoder d' idx = encoder d idx ++ cmds
    /\ (forall j, j <> idx -> encoder d' j = encoder d j)
    /\ (length (submissions cmds) <= 1)%nat
    /\ (r <> Returned tt -> submissions cmds = []).

(** A computation that writes to stream [idx] only, leaves the kernel
    provider as it is and submits nothing. *)
Definition silent (idx : Z) {A}
    (m : @M (Device Dtype Kernel KernelLibrary) A) : Prop :=
  forall d, exists cmds,
    effect idx d (m d).2 cmds
    /\ library (m d).2 = library d
    /\ submissions cmds = [].

(** A computation that writes to stream [idx] only, leaves the kernel
    provider as it is, and submits one launch when it returns and none
    when it does not. *)
Definition launches_exactly (idx : Z)
    (m : @M (Device Dtype Kernel KernelLibrary) unit) : Prop :=
  forall d, exists cmds,
    effect idx d (m d).2 cmds
    /\ library (m d).2 = library d
    /\ (((m d).1 = Returned tt /\ length (submissions cmds) = 1%nat)
        \/ ((m d).1 <> Returned tt /\ submissions cmds = [])).

End LogReadings.

(** ** Strings *)

Lemma append_nil_l (s : string) : "" +:+ s = s.
Proof. reflexivity. Qed.

Lemma append_cons (c : ascii) (s t : string) :
  String c s +:+ t = String c (s +:+ t).
Proof. reflexivity. Qed.

Lemma append_nil_r (s : string) : s +:+ "" = s.
Proof.
  induction s as [|c s IH]; [reflexivity|].
  rewrite append_cons, IH. reflexivity.
Qed.

Lemma append_assoc (s t u : string) : (s +:+ t) +:+ u = s +:+ (t +:+ u).
Proof.
  induction s as [|c s IH]; [reflexivity|].
  rewrite !append_cons, IH. reflexivity.
Qed.

Lemma string_all_append P (s t : string) :
  string_all P (s +:+ t) = string_all P s && string_all P t.
Proof.
  induction s as [|c s IH]; [reflexivity|].
  rewrite append_cons. simpl. rewrite IH, andb_assoc. reflexivity.
Qed.

(** A string splits in one way only into a run of [P]-characters followed
    by a rest that does not start with one. *)
Lemma append_split P (s1 s2 t1 t2 : string) :
  string_all P s1 = true -> string_all P s2 = true ->
  head_outside P t1 = true -> head_outside P t2 = true ->
  s1 +:+ t1 = s2 +:+ t2 -> s1 = s2 /\ t1 = t2.
Proof.
  revert s2.
  induction s1 as [|c1 s1 IH]; intros [|c2 s2] H1 H2 Ht1 Ht2 E.
  - auto.
  - rewrite append_nil_l, append_cons in E. subst t1.
    simpl in H2, Ht1. apply andb_prop in H2 as [Hc _].
    rewrite Hc in Ht1. discriminate.
  - rewrite append_nil_l, append_cons in E. subst t2.
    simpl in H1, Ht2. apply andb_prop in H1 as [Hc _].
    rewrite Hc in Ht2. discriminate.
  - rewrite !append_cons in E. injection E as -> E.
    simpl in H1, H2.
    apply andb_prop in H1 as [_ H1]. apply andb_prop in H2 as [_ H2].
    destruct (IH s2 H1 H2 Ht1 Ht2 E) as [-> ->]. auto.
Qed.

(** ** Decimal numerals *)

Lemma string_of_uint_numeric (d : Decimal.uint) :
  string_all numeric (NilEmpty.string_of_uint d) = true.
Proof. induction d; simpl; auto. Qed.

Lemma to_string_numeric (x : Z) : string_all numeric (to_string x) = true.
Proof.
  unfold to_string. destruct (Z.to_int x) as [d|d]; simpl.
  - apply string_of_uint_numeric.
  - apply string_of_uint_numeric.
Qed.

Lemma to_string_inj (x y : Z) : to_string x = to_string y -> x = y.
Proof.
  unfold to_string. intros E. apply DecimalZ.to_int_inj.
  assert (Some (Z.to_int x) = Some (Z.to_int y)) as H.
  { rewrite <- !NilEmpty.isi. rewrite E. reflexivity. }
  congruence.
Qed.

Lemma to_string_head (x : Z) :
  exists c s, to_string x = String c s /\ numeric c = true.
Proof.
  pose proof (to_string_numeric x) as H.
  unfold to_string in *. destruct x as [|p|p]; simpl in *.
  - eexists _, _. split; [reflexivity|reflexivity].
  - pose proof (DecimalPos.Unsigned.to_uint_nonnil p) as Hn.
    destruct (Pos.to_uint p); try congruence;
      simpl in *; eexists _, _; (split; [reflexivity|reflexivity]).
  - eexists _, _. split; [reflexivity|reflexivity].
Qed.

Lemma numeric_not_separator (c : ascii) :
  numeric c = true -> not_separator c = true.
Proof.
  destruct c as [[] [] [] [] [] [] [] []]; vm_compute; congruence.
Qed.

Lemma numeric_string_no_separator (s : string) :
  string_all numeric s = true -> string_all not_separator s = true.
Proof.
  induction s as [|c s IH]; [reflexivity|]. simpl.
  intros [Hc Hs]%andb_prop.
  rewrite (numeric_not_separator c Hc), (IH Hs). reflexivity.
Qed.

(** ** The variant key *)

Section KernelNameFacts.

Context {Dtype Kernel KernelLibrary : Type}.
Context {backend : Backend Dtype Kernel KernelLibrary}.

Lemma get_kernel_name_render bopt op (a : array Dtype) large ndim wpt :
  get_kernel_name bopt op a large ndim wpt =
  render_fields (encoded_fields bopt large ndim wpt)
    +:+ "_" +:+ op +:+ type_to_name a.
Proof.
  unfold get_kernel_name, concatenate, encoded_fields, render_fields.
  destruct bopt, large, (1 <? wpt), (ndim <=? 3);
    repeat case_bool_decide; try congruence;
    cbn [fold_left andb negb category_tag];
    rewrite ?append_assoc, ?append_nil_r; reflexivity.
Qed.

Lemma render_no_separator bopt large ndim wpt :
  string_all not_separator
    (render_fields (encoded_fields bopt large ndim wpt)) = true.
Proof.
  unfold encoded_fields, render_fields.
  destruct bopt, large, (1 <? wpt); try reflexivity;
    destruct (ndim <=? 3);
    rewrite ?string_all_append,
      ?(numeric_string_no_separator _ (to_string_numeric _));
    reflexivity.
Qed.

Lemma rank_text_inj (n1 n2 : Z) (l1 l2 : bool) :
  to_string n1 +:+ (if l1 then "large" else "") =
  to_string n2 +:+ (if l2 then "large" else "") ->
  n1 = n2 /\ l1 = l2.
Proof.
  intros E.
  apply (append_split numeric) in E as [E1 E2];
    try apply to_string_numeric; try (destruct l1, l2; reflexivity).
  split; [apply to_string_inj, E1|].
  destruct l1, l2; congruence.
Qed.

Lemma rank_text_not_n (n w : Z) (t1 t2 : string) :
  to_string n +:+ t1 <> "n" +:+ to_string w +:+ t2.
Proof.
  destruct (to_string_head n) as (c & s & -> & Hc).
  rewrite !append_cons. intros E. injection E as -> _. discriminate.
Qed.

Lemma render_fields_inj b1 l1 n1 w1 b2 l2 n2 w2 :
  render_fields (encoded_fields b1 l1 n1 w1) =
  render_fields (encoded_fields b2 l2 n2 w2) ->
  encoded_fields b1 l1 n1 w1 = encoded_fields b2 l2 n2 w2.
Proof.
  unfold encoded_fields, render_fields.
  destruct b1, b2; cbn [category_tag]; try discriminate;
    try (destruct l1, l2, (1 <? w1), (1 <? w2); cbn [negb andb];
         first [discriminate | reflexivity]);
    try (rewrite ?append_cons; discriminate).
  rewrite !append_cons, !append_nil_l. intros E. injection E as E.
  destruct (n1 <=? 3), (n2 <=? 3).
  - apply rank_text_inj in E as [-> ->]. reflexivity.
  - apply rank_text_not_n in E as [].
  - symmetry in E. apply rank_text_not_n in E as [].
  - rewrite !append_cons, !append_nil_l in E. injection E as E.
    apply rank_text_inj in E as [-> ->]. reflexivity.
Qed.

End KernelNameFacts.


(** ** Running the dispatcher *)

Section DispatchFacts.

Context {Dtype Kernel KernelLibrary : Type}.
Context {backend : Backend Dtype Kernel KernelLibrary}.

Abbreviation array := (array Dtype).
Abbreviation Command := (Command Dtype Kernel).
Abbreviation Device := (Device Dtype Kernel KernelLibrary).
Abbreviation M := (@M Device).

Lemma encoder_emit idx cs (d : Device) :
  encoder (emit idx cs d) idx = encoder d idx ++ cs.
Proof. unfold encoder, emit. simpl. rewrite lookup_insert_eq. reflexivity. Qed.

Lemma encoder_emit_ne idx j cs (d : Device) :
  idx <> j -> encoder (emit idx cs d) j = encoder d j.
Proof.
  intros Hne. unfold encoder, emit. simpl.
  rewrite lookup_insert_ne by exact Hne. reflexivity.
Qed.

Lemma library_emit idx cs (d : Device) : library (emit idx cs d) = library d.
Proof. reflexivity. Qed.

Lemma emit_emit idx cs1 cs2 (d : Device) :
  emit idx cs2 (emit idx cs1 d) = emit idx (cs1 ++ cs2) d.
Proof.
  unfold emit at 1. rewrite encoder_emit. unfold emit. simpl.
  rewrite insert_insert_eq, app_assoc. reflexivity.
Qed.

Lemma bind_encode {A} idx c (k : unit -> M A) (d : Device) :
  bind (encode idx c) k d = k tt (emit idx [c] d).
Proof. reflexivity. Qed.

Lemma bind_resolve {A} get (k : Kernel -> M A) (d : Device) :
  bind (resolve get) k d =
  k (get (library d)).1 (mk_Device (get (library d)).2 (encoders d)).
Proof. unfold bind, resolve. destruct (get (library d)). reflexivity. Qed.

Lemma bind_ret {A B} (x : A) (k : A -> M B) (d : Device) :
  bind (ret x) k d = k x d.
Proof. reflexivity. Qed.

Lemma bind_assoc {A B C} (m : M A) (f : A -> M B) (k : B -> M C)
    (d : Device) :
  bind (bind m f) k d = bind m (fun x => bind (f x) k) d.
Proof. unfold bind. destruct (m d) as [[] ?]; reflexivity. Qed.

Lemma bind_vector_at_0 {A B} (x : A) l (k : A -> M B) (d : Device) :
  bind (vector_at (x :: l) 0) k d = k x d.
Proof. reflexivity. Qed.

Lemma bind_vector_at_1 {A B} (x y : A) l (k : A -> M B) (d : Device) :
  bind (vector_at (x :: y :: l) 1) k d = k y d.
Proof. reflexivity. Qed.

Lemma bind_div_size_t {B} x y (k : Z -> M B) (d : Device) :
  y <> 0 -> bind (div_size_t x y) k d = k (x / y) d.
Proof.
  intros Hy. unfold div_size_t.
  destruct (Z.eqb_spec y 0); [contradiction|reflexivity].
Qed.

Lemma encode_run idx c (d : Device) :
  encode idx c d = (Returned tt, emit idx [c] d).
Proof. reflexivity. Qed.

Lemma maybe_collapse_compact bopt (a b out : array) :
  bopt <> General -> maybe_collapse bopt a b out = ([], [], [], []).
Proof. intros H. unfold maybe_collapse. rewrite bool_decide_false; done. Qed.

Lemma maybe_collapse_general (a b out : array) :
  maybe_collapse General a b out =
  ((collapse_contiguous_dims a b out).1,
   (collapse_contiguous_dims a b out).2.1.1,
   (collapse_contiguous_dims a b out).2.1.2,
   (collapse_contiguous_dims a b out).2.2).
Proof.
  unfold maybe_collapse. rewrite bool_decide_true by done.
  destruct (collapse_contiguous_dims a b out) as [? [[? ?] ?]]. reflexivity.
Qed.

(** One step of the dispatcher at a time. *)
Ltac encode_steps :=
  unfold set_compute_pipeline_state, set_input_array, set_output_array,
    set_vector_bytes, set_bytes_int, set_bytes_int64, dispatch_threads;
  repeat first
    [ rewrite bind_encode
    | rewrite bind_ret
    | rewrite bind_vector_at_0
    | rewrite bind_vector_at_1
    | rewrite bind_assoc
    | rewrite encode_run
    | progress rewrite ?emit_emit
    | progress cbv beta ].

Lemma dispatch_compact_run (a b : array) ins out outs op s (d : Device) :
  let bopt := get_binary_op_type a b in
  let large := (index_width bopt a b out).1 in
  let work_per_thread := (index_width bopt a b out).2 in
  let kernel := (requested_kernel a b out (out :: outs) op (library d)).1 in
  let lib := (requested_kernel a b out (out :: outs) op (library d)).2 in
  let nthreads :=
    to_size_t (data_size out + to_size_t work_per_thread - 1)
    / to_size_t work_per_thread in
  let bound := array_bindings a b (out :: outs) in
  bopt <> General ->
  size out <> 0 ->
  to_size_t work_per_thread <> 0 ->
  binary_op_gpu_inplace (a :: b :: ins) (out :: outs) op s d =
  (Returned tt,
   emit (index s)
     (SetComputePipelineState kernel :: bound
      ++ compact_bindings large out (Z.of_nat (length bound))
      ++ [DispatchThreads
            (if large
             then get_2d_grid_dims (shape out) (strides out) work_per_thread
             else MTL_Size nthreads 1 1)
            (MTL_Size
               (if nthreads <? maxTotalThreadsPerThreadgroup kernel
                then nthreads else maxTotalThreadsPerThreadgroup kernel)
               1 1)])
     (mk_Device lib (encoders d))).
Proof.
  intros bopt large wpt kernel lib nthreads bound Hb Hsize Hwpt.
  subst bound nthreads lib kernel large wpt.
  unfold requested_kernel, collapsed_shape, binary_op_gpu_inplace.
  rewrite bind_vector_at_0, bind_vector_at_1, bind_vector_at_0.
  subst bopt. set (bopt := get_binary_op_type a b) in *. clearbody bopt.
  destruct (Z.eqb_spec (size out) 0) as [|_]; [contradiction|].
  rewrite (maybe_collapse_compact bopt a b out Hb).
  destruct (index_width bopt a b out) as [large wpt].
  cbn [fst snd] in *.
  rewrite (bool_decide_false (bopt = General)) by exact Hb.
  unfold compact_bindings, ceildiv.
  destruct outs as [|out1 [|out2 outs]].
  - rewrite !(bool_decide_false (length [out] = 2%nat)) by done.
    rewrite bind_resolve.
    encode_steps. rewrite bind_div_size_t by exact Hwpt.
    destruct large; encode_steps; reflexivity.
  - rewrite !(bool_decide_true (length [out; out1] = 2%nat)) by done.
    rewrite bind_resolve.
    encode_steps. rewrite bind_div_size_t by exact Hwpt.
    destruct large; encode_steps; reflexivity.
  - rewrite !(bool_decide_false (length (out :: out1 :: out2 :: outs) = 2%nat))
      by done.
    rewrite bind_resolve.
    encode_steps. rewrite bind_div_size_t by exact Hwpt.
    destruct large; encode_steps; reflexivity.
Qed.

Lemma index_width_general (a b out : array) :
  index_width General a b out =
  ((INT32_MAX <? data_size a) || (INT32_MAX <? data_size b)
   || (INT32_MAX <? size out),
   if (INT32_MAX <? data_size a) || (INT32_MAX <? data_size b)
      || (INT32_MAX <? size out) then 4 else 2).
Proof. unfold index_width. rewrite bool_decide_true by done. reflexivity. Qed.

Lemma index_width_general_wpt (a b out : array) :
  to_size_t (index_width General a b out).2 <> 0.
Proof.
  rewrite index_width_general. cbn [snd].
  destruct (_ || _); vm_compute; discriminate.
Qed.

Lemma dispatch_general_run (a b : array) ins out outs op s (d : Device) :
  let bopt := get_binary_op_type a b in
  let shape_ := collapsed_shape a b out in
  let strides_a := (maybe_collapse bopt a b out).1.1.2 in
  let strides_b := (maybe_collapse bopt a b out).1.2 in
  let work_per_thread := (index_width bopt a b out).2 in
  let kernel := (requested_kernel a b out (out :: outs) op (library d)).1 in
  let lib := (requested_kernel a b out (out :: outs) op (library d)).2 in
  let ndim := Z.of_nat (length shape_) in
  let dim0 :=
    if 0 <? ndim then to_size_t (shape_at shape_ (ndim - 1)) else 1 in
  let dim1 :=
    if 1 <? ndim then to_size_t (shape_at shape_ (ndim - 2)) else 1 in
  let rest := size out / to_size_t (dim0 * dim1) in
  let dim0' :=
    if 3 <? ndim
    then to_size_t (dim0 + to_size_t work_per_thread - 1)
         / to_size_t work_per_thread
    else dim0 in
  let bound := array_bindings a b (out :: outs) in
  let mismatch :=
    bool_decide (maxTotalThreadsPerThreadgroup kernel <> 1024) in
  bopt = General ->
  size out <> 0 ->
  to_size_t (dim0 * dim1) <> 0 ->
  binary_op_gpu_inplace (a :: b :: ins) (out :: outs) op s d =
  (if mismatch
   then Thrown "[Metal::binary] Must use 1024 sized block"
   else Returned tt,
   emit (index s)
     (SetComputePipelineState kernel :: bound
      ++ general_bindings shape_ strides_a strides_b
           (Z.of_nat (length bound))
      ++ (if mismatch then []
          else [DispatchThreads (MTL_Size dim0' dim1 rest)
                  (get_block_dims dim0' dim1 rest)]))
     (mk_Device lib (encoders d))).
Proof.
  intros bopt shape_ strides_a strides_b wpt kernel lib ndim dim0 dim1 rest
    dim0' bound mismatch Hb Hsize Hdiv.
  subst mismatch bound dim0' rest.
  subst dim1 dim0 ndim lib kernel wpt strides_b strides_a shape_.
  unfold requested_kernel, collapsed_shape, binary_op_gpu_inplace in *.
  rewrite bind_vector_at_0, bind_vector_at_1, bind_vector_at_0.
  subst bopt. rewrite Hb in *.
  destruct (Z.eqb_spec (size out) 0) as [|_]; [contradiction|].
  pose proof (index_width_general_wpt a b out) as Hwpt.
  destruct (maybe_collapse General a b out) as [[[shape_ sa] sb] so].
  destruct (index_width General a b out) as [large wpt].
  cbn [fst snd] in *.
  rewrite (bool_decide_true (General = General)) by done.
  unfold general_bindings.
  destruct outs as [|out1 [|out2 outs]].
  - rewrite !(bool_decide_false (length [out] = 2%nat)) by done.
    rewrite bind_resolve. encode_steps.
    rewrite bind_div_size_t by exact Hdiv.
    destruct (3 <? Z.of_nat (length shape_)); encode_steps;
      rewrite ?bind_div_size_t by exact Hwpt;
      case_bool_decide; encode_steps; reflexivity.
  - rewrite !(bool_decide_true (length [out; out1] = 2%nat)) by done.
    rewrite bind_resolve. encode_steps.
    rewrite bind_div_size_t by exact Hdiv.
    destruct (3 <? Z.of_nat (length shape_)); encode_steps;
      rewrite ?bind_div_size_t by exact Hwpt;
      case_bool_decide; encode_steps; reflexivity.
  - rewrite !(bool_decide_false (length (out :: out1 :: out2 :: outs) = 2%nat))
      by done.
    rewrite bind_resolve. encode_steps.
    rewrite bind_div_size_t by exact Hdiv.
    destruct (3 <? Z.of_nat (length shape_)); encode_steps;
      rewrite ?bind_div_size_t by exact Hwpt;
      case_bool_decide; encode_steps; reflexivity.
Qed.

Lemma dispatch_empty_run (a b : array) ins out outs op s (d : Device) :
  size out = 0 ->
  binary_op_gpu_inplace (a :: b :: ins) (out :: outs) op s d =
  (Returned tt, d).
Proof.
  intros Hsize. unfold binary_op_gpu_inplace.
  rewrite bind_vector_at_0, bind_vector_at_1, bind_vector_at_0.
  rewrite Hsize. reflexivity.
Qed.


(** ** Arithmetic of the launch geometry *)

Lemma to_size_t_small (x : Z) : 0 <= x < 2 ^ 64 -> to_size_t x = x.
Proof. intros H. unfold to_size_t. apply Z.mod_small, H. Qed.

(** The quotient the code computes is the ceiling. *)
Lemma ceiling_quotient (a b : Z) : 0 < b -> (a + b - 1) / b = ceiling a b.
Proof.
  intros Hb. unfold ceiling.
  pose proof (Z.div_mod (a + b - 1) b) as H1.
  pose proof (Z.mod_pos_bound (a + b - 1) b Hb) as H2.
  pose proof (Z.div_mod (- a) b) as H3.
  pose proof (Z.mod_pos_bound (- a) b Hb) as H4.
  nia.
Qed.

Lemma ceiling_spec (a b : Z) :
  0 < b -> a <= ceiling a b * b < a + b.
Proof.
  intros Hb. unfold ceiling.
  pose proof (Z.div_mod (- a) b) as H3.
  pose proof (Z.mod_pos_bound (- a) b Hb) as H4.
  nia.
Qed.

Lemma shape_at_snoc (l : Shape) (x : Z) :
  shape_at (l ++ [x]) (Z.of_nat (length (l ++ [x])) - 1) = x.
Proof.
  unfold shape_at. rewrite length_app. cbn [length].
  replace (Z.to_nat (Z.of_nat (length l + 1) - 1)) with (length l) by lia.
  rewrite list_lookup_middle by reflexivity. reflexivity.
Qed.

Lemma shape_at_snoc2 (l : Shape) (y x : Z) :
  shape_at (l ++ [y; x]) (Z.of_nat (length (l ++ [y; x])) - 2) = y.
Proof.
  unfold shape_at. rewrite length_app. cbn [length].
  replace (Z.to_nat (Z.of_nat (length l + 2) - 2)) with (length l) by lia.
  rewrite list_lookup_middle by reflexivity. reflexivity.
Qed.

Lemma positive_dimsb_true (shape_ : Shape) :
  positive_dimsb shape_ = true -> positive_dims shape_.
Proof.
  unfold positive_dimsb, positive_dims. rewrite forallb_forall.
  intros H. apply Forall_forall. intros x Hx%list_elem_of_In.
  apply H in Hx. apply andb_prop in Hx as [H0 H1].
  apply Z.ltb_lt in H0, H1. lia.
Qed.

Lemma well_definedb_true (a b out : array) :
  well_definedb a b out = true -> well_defined a b out.
Proof.
  unfold well_definedb, well_defined. case_bool_decide.
  - apply positive_dimsb_true.
  - intros [H0 H1]%andb_prop. apply Z.ltb_lt in H0, H1. lia.
Qed.

(** On positive [int] dimensions the two innermost extents read by the
    dispatcher are the last and second-to-last dimension. *)
Lemma innermost_dims (shape_ : Shape) :
  positive_dims shape_ ->
  let ndim := Z.of_nat (length shape_) in
  (if 0 <? ndim then to_size_t (shape_at shape_ (ndim - 1)) else 1)
    = last_dim shape_
  /\ (if 1 <? ndim then to_size_t (shape_at shape_ (ndim - 2)) else 1)
    = second_last_dim shape_
  /\ 0 < last_dim shape_ < 2 ^ 31
  /\ 0 < second_last_dim shape_ < 2 ^ 31.
Proof.
  intros Hpos ndim. subst ndim. unfold positive_dims in Hpos.
  assert (shape_ = rev (rev shape_)) as E
    by (symmetry; apply rev_involutive).
  unfold last_dim, second_last_dim.
  destruct (rev shape_) as [|x [|y r]]; simpl rev in E; subst shape_.
  - repeat split; try reflexivity; lia.
  - apply Forall_cons in Hpos as [Hx _].
    change ([] ++ [x]) with [x].
    change (0 <? Z.of_nat (length [x])) with true.
    change (1 <? Z.of_nat (length [x])) with false.
    change (shape_at [x] _) with x.
    rewrite to_size_t_small by lia. lia.
  - apply Forall_app in Hpos as [Hr Hx].
    apply Forall_app in Hr as [_ Hy].
    apply Forall_cons in Hx as [Hx _]. apply Forall_cons in Hy as [Hy _].
    rewrite shape_at_snoc.
    rewrite <- (app_assoc (rev r) [y] [x]). simpl app.
    rewrite shape_at_snoc2.
    rewrite length_app. simpl length.
    destruct (Z.ltb_spec 0 (Z.of_nat (length (rev r) + 2))); [|lia].
    destruct (Z.ltb_spec 1 (Z.of_nat (length (rev r) + 2))); [|lia].
    rewrite !to_size_t_small by lia. lia.
Qed.

(** ** Outcomes of a dispatch *)

Lemma bind_div_size_t_zero {B} x (k : Z -> M B) (d : Device) :
  bind (div_size_t x 0) k d = (Undefined, d).
Proof. reflexivity. Qed.

(** Without a positive work-per-thread the compact path has no defined
    behaviour; in particular it does not throw. *)
Lemma dispatch_compact_undefined (a b : array) ins out outs op s
    (d : Device) :
  let bopt := get_binary_op_type a b in
  bopt <> General ->
  size out <> 0 ->
  to_size_t (index_width bopt a b out).2 = 0 ->
  (binary_op_gpu_inplace (a :: b :: ins) (out :: outs) op s d).1 = Undefined.
Proof.
  intros bopt Hb Hsize Hwpt.
  unfold binary_op_gpu_inplace.
  rewrite bind_vector_at_0, bind_vector_at_1, bind_vector_at_0.
  subst bopt. set (bopt := get_binary_op_type a b) in *. clearbody bopt.
  destruct (Z.eqb_spec (size out) 0) as [|_]; [contradiction|].
  rewrite (maybe_collapse_compact bopt a b out Hb).
  destruct (index_width bopt a b out) as [large wpt].
  cbn [fst snd] in *.
  rewrite (bool_decide_false (bopt = General)) by exact Hb.
  unfold ceildiv. rewrite Hwpt.
  destruct outs as [|out1 [|out2 outs]].
  - rewrite !(bool_decide_false (length [out] = 2%nat)) by done.
    rewrite bind_resolve. encode_steps.
    rewrite bind_div_size_t_zero. reflexivity.
  - rewrite !(bool_decide_true (length [out; out1] = 2%nat)) by done.
    rewrite bind_resolve. encode_steps.
    rewrite bind_div_size_t_zero. reflexivity.
  - rewrite !(bool_decide_false (length (out :: out1 :: out2 :: outs) = 2%nat))
      by done.
    rewrite bind_resolve. encode_steps.
    rewrite bind_div_size_t_zero. reflexivity.
Qed.

Lemma general_divisor (shape_ : Shape) :
  positive_dims shape_ ->
  let ndim := Z.of_nat (length shape_) in
  to_size_t
    ((if 0 <? ndim then to_size_t (shape_at shape_ (ndim - 1)) else 1)
     * (if 1 <? ndim then to_size_t (shape_at shape_ (ndim - 2)) else 1))
  = last_dim shape_ * second_last_dim shape_
  /\ last_dim shape_ * second_last_dim shape_ <> 0.
Proof.
  intros Hpos ndim. subst ndim.
  destruct (innermost_dims shape_ Hpos) as (-> & -> & H0 & H1).
  rewrite to_size_t_small by nia. split; [reflexivity|nia].
Qed.

Lemma submissions_app (l1 l2 : list Command) :
  submissions (l1 ++ l2) = submissions l1 ++ submissions l2.
Proof. unfold submissions. apply omap_app. Qed.

Lemma array_bindings_no_submission (a b : array) outputs :
  submissions (array_bindings a b outputs : list Command) = [].
Proof. destruct outputs as [|? [|? [|? ?]]]; reflexivity. Qed.

Lemma general_bindings_no_submission shape_ (sa sb : Strides) k :
  submissions (general_bindings shape_ sa sb k : list Command) = [].
Proof. unfold general_bindings. destruct (3 <? _); reflexivity. Qed.

Lemma compact_bindings_no_submission large (out : array) k :
  submissions (compact_bindings large out k : list Command) = [].
Proof. destruct large; reflexivity. Qed.

Lemma bindings_app (l1 l2 : list Command) :
  bindings (l1 ++ l2) = bindings l1 ++ bindings l2.
Proof. unfold bindings. apply filter_app. Qed.

Lemma array_bindings_bindings (a b : array) outputs :
  bindings (array_bindings a b outputs : list Command)
  = array_bindings a b outputs.
Proof. destruct outputs as [|? [|? [|? ?]]]; reflexivity. Qed.

Lemma general_bindings_bindings shape_ (sa sb : Strides) k :
  bindings (general_bindings shape_ sa sb k : list Command)
  = general_bindings shape_ sa sb k.
Proof. unfold general_bindings. destruct (3 <? _); reflexivity. Qed.

Lemma compact_bindings_bindings large (out : array) k :
  bindings (compact_bindings large out k : list Command)
  = compact_bindings large out k.
Proof. destruct large; reflexivity. Qed.

End DispatchFacts.

(** ** Properties of the dispatch engine *)

Section Properties.

Context {Dtype Kernel KernelLibrary : Type}.
Context {backend : Backend Dtype Kernel KernelLibrary}.

Abbreviation array := (array Dtype).
Abbreviation Command := (Command Dtype Kernel).
Abbreviation Device := (Device Dtype Kernel KernelLibrary).

Lemma submissions_pipeline kernel (l : list Command) :
  submissions (SetComputePipelineState kernel :: l) = submissions l.
Proof. reflexivity. Qed.

Lemma encoder_after_resolve lib (d : Device) j :
  encoder (mk_Device lib (encoders d) : Device) j = encoder d j.
Proof. reflexivity. Qed.

(** C1, as amended. For the categories ScalarVector, VectorScalar and
    VectorVector the key is the category tag followed by the width
    suffix ([2] when wide, [n] when narrow with a work-per-thread above
    1), the separator, the operator name and the type tag. For
    ScalarScalar the tag is followed directly by the separator: the
    suffix is appended for no width and no work-per-thread. *)
Theorem width_suffix_on_vector_categories bopt op (a : array) large ndim
    work_per_thread :
  bopt <> General ->
  get_kernel_name bopt op a large ndim work_per_thread =
  category_tag bopt
  +:+ (if bool_decide (bopt = ScalarScalar) then ""
       else width_suffix large work_per_thread)
  +:+ "_" +:+ op +:+ type_to_name a.
Proof.
  intros Hb. rewrite get_kernel_name_render.
  unfold encoded_fields, render_fields, width_suffix.
  destruct bopt; try congruence; case_bool_decide; try congruence;
    destruct large, (1 <? work_per_thread); cbn [negb andb category_tag];
    rewrite ?append_assoc; reflexivity.
Qed.

(** C2, as amended. Two argument tuples give the same key exactly when
    they agree on the fields the key encodes (the category; for General
    the rank when at most 3, the work-per-thread otherwise, and the
    width; for ScalarVector, VectorScalar and VectorVector the width and,
    when narrow, whether the work-per-thread exceeds 1) and on the
    operator name followed by the type tag. In particular the builder is
    deterministic. *)
Theorem variant_key_encodes bopt1 op1 (a1 : array) large1 ndim1 wpt1
    bopt2 op2 (a2 : array) large2 ndim2 wpt2 :
  get_kernel_name bopt1 op1 a1 large1 ndim1 wpt1 =
  get_kernel_name bopt2 op2 a2 large2 ndim2 wpt2
  <->
  encoded_fields bopt1 large1 ndim1 wpt1 =
  encoded_fields bopt2 large2 ndim2 wpt2
  /\ op1 +:+ type_to_name a1 = op2 +:+ type_to_name a2.
Proof.
  rewrite !get_kernel_name_render. split.
  - intros E.
    apply (append_split not_separator) in E as [E1 E2];
      try apply render_no_separator; try reflexivity.
    split; [apply render_fields_inj, E1|].
    rewrite !append_cons, !append_nil_l in E2. congruence.
  - intros [-> ->]. reflexivity.
Qed.

(** C3. On the General path the dispatch is wide exactly when the
    storage element count of a, the storage element count of b or the
    element count of the output exceeds the largest signed 32-bit value
    2147483647, and the work-per-thread is 4 when wide and 2 otherwise;
    for every other category it is wide exactly when the storage element
    count of the output exceeds the largest unsigned 32-bit value
    4294967295. *)
Theorem index_width_policy (a b out : array) :
  ((index_width General a b out).1 = true <->
   2147483647 < data_size a \/ 2147483647 < data_size b
   \/ 2147483647 < size out)
  /\ (index_width General a b out).2 =
     (if (index_width General a b out).1 then 4 else 2)
  /\ (forall bopt, bopt <> General ->
      ((index_width bopt a b out).1 = true <-> 4294967295 < data_size out)).
Proof.
  split; [|split].
  - rewrite index_width_general. cbn [fst]. unfold INT32_MAX.
    rewrite !orb_true_iff, !Z.ltb_lt. tauto.
  - rewrite index_width_general. reflexivity.
  - intros bopt Hb. unfold index_width.
    rewrite bool_decide_false by exact Hb. cbn [fst]. unfold UINT32_MAX.
    apply Z.ltb_lt.
Qed.

(** C9. The lambda [maybe_collapse] collapses exactly when the category
    is General, where it returns the collapsed shape and the three
    collapsed stride vectors; for every other category the shape and the
    three stride vectors it returns are empty. *)
Theorem collapse_only_general bopt (a b out : array) :
  (bopt = General ->
   maybe_collapse bopt a b out =
   ((collapse_contiguous_dims a b out).1,
    (collapse_contiguous_dims a b out).2.1.1,
    (collapse_contiguous_dims a b out).2.1.2,
    (collapse_contiguous_dims a b out).2.2))
  /\ (bopt <> General -> maybe_collapse bopt a b out = ([], [], [], [])).
Proof.
  split.
  - intros ->. apply maybe_collapse_general.
  - apply maybe_collapse_compact.
Qed.

(** C10. Whatever the operator of the primitive, [eval_gpu] is the one
    call [binary_op_gpu(inputs, out, name())]. *)
Theorem eval_gpu_single_call (this : BitwiseBinary) (inputs : list array)
    (out : array) :
  eval_gpu this inputs out = binary_op_gpu inputs out (name this).
Proof. unfold eval_gpu. destruct (op_ this); reflexivity. Qed.

(** What a well-defined, non-empty dispatch leaves behind, on either
    path: the outcome, the commands added to the encoder of the stream,
    and the state of the kernel provider. *)
Lemma dispatch_general_summary (a b : array) ins out outs op s (d : Device) :
  let bopt := get_binary_op_type a b in
  let shape_ := collapsed_shape a b out in
  let strides_a := (maybe_collapse bopt a b out).1.1.2 in
  let strides_b := (maybe_collapse bopt a b out).1.2 in
  let work_per_thread := (index_width bopt a b out).2 in
  let kernel := (requested_kernel a b out (out :: outs) op (library d)).1 in
  let lib := (requested_kernel a b out (out :: outs) op (library d)).2 in
  let run := binary_op_gpu_inplace (a :: b :: ins) (out :: outs) op s d in
  let dim0 := last_dim shape_ in
  let dim1 := second_last_dim shape_ in
  let rest := size out / (dim0 * dim1) in
  let dim0' :=
    if 3 <? Z.of_nat (length shape_) then ceiling dim0 work_per_thread
    else dim0 in
  let bound := array_bindings a b (out :: outs) in
  let mismatch :=
    bool_decide (maxTotalThreadsPerThreadgroup kernel <> 1024) in
  bopt = General -> size out <> 0 -> positive_dims shape_ ->
  run =
  (if mismatch
   then Thrown "[Metal::binary] Must use 1024 sized block"
   else Returned tt,
   emit (index s)
     (SetComputePipelineState kernel :: bound
      ++ general_bindings shape_ strides_a strides_b
           (Z.of_nat (length bound))
      ++ (if mismatch then []
          else [DispatchThreads (MTL_Size dim0' dim1 rest)
                  (get_block_dims dim0' dim1 rest)]))
     (mk_Device lib (encoders d))).
Proof.
  intros bopt shape_ strides_a strides_b wpt kernel lib run dim0 dim1 rest
    dim0' bound mismatch Hb Hsize Hpos.
  subst mismatch bound dim0' rest dim1 dim0 run lib kernel wpt strides_b
    strides_a shape_ bopt.
  destruct (general_divisor _ Hpos) as [Hdiv Hnz].
  destruct (innermost_dims _ Hpos) as (E0 & E1 & H0 & _).
  pose proof (dispatch_general_run a b ins out outs op s d) as H.
  cbv zeta in H. rewrite Hdiv, E0, E1 in H. specialize (H Hb Hsize Hnz).
  rewrite H. clear H.
  assert (to_size_t (last_dim (collapsed_shape a b out)
                     + to_size_t (index_width (get_binary_op_type a b) a b out).2 - 1)
          / to_size_t (index_width (get_binary_op_type a b) a b out).2
          = ceiling (last_dim (collapsed_shape a b out))
              (index_width (get_binary_op_type a b) a b out).2) as ->.
  { rewrite Hb, index_width_general. cbn [snd].
    destruct (_ || _).
    - change (to_size_t 4) with 4. rewrite to_size_t_small by lia.
      apply ceiling_quotient. lia.
    - change (to_size_t 2) with 2. rewrite to_size_t_small by lia.
      apply ceiling_quotient. lia. }
  reflexivity.
Qed.

Lemma dispatch_compact_summary (a b : array) ins out outs op s (d : Device) :
  let bopt := get_binary_op_type a b in
  let large := (index_width bopt a b out).1 in
  let work_per_thread := (index_width bopt a b out).2 in
  let kernel := (requested_kernel a b out (out :: outs) op (library d)).1 in
  let lib := (requested_kernel a b out (out :: outs) op (library d)).2 in
  let run := binary_op_gpu_inplace (a :: b :: ins) (out :: outs) op s d in
  let nthreads :=
    to_size_t (data_size out + work_per_thread - 1) / work_per_thread in
  let bound := array_bindings a b (out :: outs) in
  bopt <> General -> size out <> 0 -> 0 < work_per_thread < 2 ^ 31 ->
  run =
  (Returned tt,
   emit (index s)
     (SetComputePipelineState kernel :: bound
      ++ compact_bindings large out (Z.of_nat (length bound))
      ++ [DispatchThreads
            (if large
             then get_2d_grid_dims (shape out) (strides out) work_per_thread
             else MTL_Size nthreads 1 1)
            (MTL_Size
               (Z.min (maxTotalThreadsPerThreadgroup kernel) nthreads) 1 1)])
     (mk_Device lib (encoders d))).
Proof.
  intros bopt large wpt kernel lib run nthreads bound Hb Hsize Hwpt.
  assert (to_size_t wpt = wpt) as Ew by (apply to_size_t_small; lia).
  pose proof (dispatch_compact_run a b ins out outs op s d) as H.
  cbv zeta in H. fold bopt wpt in H. rewrite Ew in H.
  specialize (H Hb Hsize ltac:(lia)).
  subst run. rewrite H. clear H. fold nthreads kernel.
  replace (if nthreads <? maxTotalThreadsPerThreadgroup kernel
           then nthreads else maxTotalThreadsPerThreadgroup kernel)
    with (Z.min (maxTotalThreadsPerThreadgroup kernel) nthreads)
    by (destruct (Z.ltb_spec nthreads (maxTotalThreadsPerThreadgroup kernel));
        lia).
  reflexivity.
Qed.

(** C4. A non-empty dispatch of category General whose kernel does not
    admit exactly 1024 threads per group throws the fatal error, and no
    encoder has received a launch; a dispatch of any other category never
    throws, whatever the limit of its kernel. *)
Theorem block_size_check (a b : array) ins out outs op s (d : Device) :
  (get_binary_op_type a b = General -> size out <> 0 ->
   positive_dims (collapsed_shape a b out) ->
   maxTotalThreadsPerThreadgroup (dispatch_kernel a b out (out :: outs) op d)
     <> 1024 ->
   exists d',
     binary_op_gpu_inplace (a :: b :: ins) (out :: outs) op s d =
     (Thrown "[Metal::binary] Must use 1024 sized block", d')
     /\ forall j, submissions (encoder d' j) = submissions (encoder d j))
  /\ (get_binary_op_type a b <> General ->
      forall what d',
        binary_op_gpu_inplace (a :: b :: ins) (out :: outs) op s d
        <> (Thrown what, d')).
Proof.
  split.
  - intros Hb Hsize Hpos Hk.
    pose proof (dispatch_general_summary a b ins out outs op s d) as H.
    cbv zeta in H. specialize (H Hb Hsize Hpos).
    unfold dispatch_kernel in Hk. rewrite (bool_decide_true _ Hk) in H.
    eexists. split; [exact H|].
    intros j. destruct (decide (index s = j)) as [<-|Hne].
    + rewrite encoder_emit, encoder_after_resolve.
      rewrite app_nil_r, submissions_app, submissions_pipeline.
      rewrite submissions_app, array_bindings_no_submission,
        general_bindings_no_submission.
      apply app_nil_r.
    + rewrite encoder_emit_ne by exact Hne. reflexivity.
  - intros Hb what d' E. apply (f_equal fst) in E. cbn [fst] in E.
    destruct (Z.eq_dec (size out) 0) as [Hz|Hsize].
    { rewrite dispatch_empty_run in E by exact Hz. discriminate. }
    destruct (Z.eq_dec
                (to_size_t (index_width (get_binary_op_type a b) a b out).2)
                0) as [Hw|Hw].
    { rewrite (dispatch_compact_undefined a b ins out outs op s d Hb Hsize Hw)
        in E.
      discriminate. }
    rewrite (dispatch_compact_run a b ins out outs op s d Hb Hsize Hw) in E.
    discriminate.
Qed.

(** C7. On a non-empty General dispatch with positive collapsed
    dimensions and a kernel of 1024 threads per group, the dispatcher
    returns after one launch whose grid is (dim0, dim1, rest): dim1 is
    the second-to-last collapsed dimension (1 below rank 2), rest is the
    element count of the output divided by the product of the last
    dimension (1 at rank 0) and dim1, and dim0 is the last dimension,
    replaced by its ceiling division by the work-per-thread when the rank
    exceeds 3. The thread group is what [get_block_dims] gives for these
    three numbers. *)
Theorem general_launch_geometry (a b : array) ins out outs op s
    (d : Device) :
  get_binary_op_type a b = General -> size out <> 0 ->
  positive_dims (collapsed_shape a b out) ->
  maxTotalThreadsPerThreadgroup (dispatch_kernel a b out (out :: outs) op d)
    = 1024 ->
  exists d' cmds,
    binary_op_gpu_inplace (a :: b :: ins) (out :: outs) op s d =
    (Returned tt, d')
    /\ encoder d' (index s) = encoder d (index s) ++ cmds
    /\ let grid :=
         general_grid (collapsed_shape a b out) (size out)
           (dispatch_work_per_thread a b out) in
       submissions cmds =
       [(grid, get_block_dims (width grid) (height grid) (depth grid))].
Proof.
  intros Hb Hsize Hpos Hk.
  pose proof (dispatch_general_summary a b ins out outs op s d) as H.
  cbv zeta in H. specialize (H Hb Hsize Hpos).
  unfold dispatch_kernel in Hk.
  rewrite (bool_decide_false _ (fun H => H Hk)) in H.
  eexists _, _. split; [exact H|]. split.
  - rewrite encoder_emit, encoder_after_resolve. reflexivity.
  - cbv zeta.
    rewrite submissions_pipeline, !submissions_app,
      array_bindings_no_submission, general_bindings_no_submission.
    reflexivity.
Qed.

(** C8, as amended. On a non-empty dispatch of any category but General,
    with a positive work-per-thread and a storage element count of the
    output below 2^63, the dispatcher returns after one launch: the
    required thread count is the ceiling of the output's storage element
    count divided by the work-per-thread, the thread group is the
    smaller of the kernel's limit and that count, and the grid is
    (count, 1, 1) when narrow (what [get_2d_grid_dims] gives when wide). *)
Theorem compact_launch_geometry (a b : array) ins out outs op s
    (d : Device) :
  get_binary_op_type a b <> General -> size out <> 0 ->
  0 < dispatch_work_per_thread a b out < 2 ^ 31 ->
  0 <= data_size out < 2 ^ 63 ->
  exists d' cmds,
    binary_op_gpu_inplace (a :: b :: ins) (out :: outs) op s d =
    (Returned tt, d')
    /\ encoder d' (index s) = encoder d (index s) ++ cmds
    /\ let nthreads :=
         ceiling (data_size out) (dispatch_work_per_thread a b out) in
       submissions cmds =
       [(if dispatch_large a b out
         then get_2d_grid_dims (shape out) (strides out)
                (dispatch_work_per_thread a b out)
         else MTL_Size nthreads 1 1,
         MTL_Size
           (Z.min
              (maxTotalThreadsPerThreadgroup
                 (dispatch_kernel a b out (out :: outs) op d))
              nthreads) 1 1)].
Proof.
  unfold dispatch_work_per_thread, dispatch_large, dispatch_kernel.
  intros Hb Hsize Hwpt Hdata.
  pose proof (dispatch_compact_summary a b ins out outs op s d) as H.
  cbv zeta in H. specialize (H Hb Hsize Hwpt).
  rewrite to_size_t_small, ceiling_quotient in H by lia.
  eexists _, _. split; [exact H|]. split.
  - rewrite encoder_emit, encoder_after_resolve. reflexivity.
  - cbv zeta.
    rewrite submissions_pipeline, !submissions_app,
      array_bindings_no_submission, compact_bindings_no_submission.
    reflexivity.
Qed.

(** C6, as amended. On a well-defined non-empty dispatch the arguments
    bound on the encoder of the stream are, in this order: a in slot 0,
    b in slot 1, the output in slot 2, the second output in slot 3 when
    the dispatch has two outputs, and from the next slot on: on the
    General path the collapsed shape, the strides of a, the strides of b
    and the rank when the rank exceeds 3, and the strides of a and of b
    otherwise; on the other path the storage element count of the output,
    as a 64-bit value when wide and as a 32-bit value when narrow. *)
Theorem argument_binding_order (a b : array) ins out outs op s
    (d : Device) :
  size out <> 0 -> well_defined a b out ->
  exists r d' cmds,
    binary_op_gpu_inplace (a :: b :: ins) (out :: outs) op s d = (r, d')
    /\ encoder d' (index s) = encoder d (index s) ++ cmds
    /\ bindings cmds =
       array_bindings a b (out :: outs) ++
       later_bindings a b out
         (Z.of_nat (length (array_bindings a b (out :: outs) : list Command))).
Proof.
  intros Hsize Hwd.
  unfold well_defined, later_bindings, dispatch_work_per_thread,
    dispatch_large, collapsed_strides_a, collapsed_strides_b in *.
  case_bool_decide as Hb.
  - pose proof (dispatch_general_summary a b ins out outs op s d) as H.
    cbv zeta in H. specialize (H Hb Hsize Hwd).
    eexists _, _, _. split; [exact H|]. split.
    + rewrite encoder_emit, encoder_after_resolve. reflexivity.
    + change (bindings (SetComputePipelineState ?k :: ?l))
        with (bindings l).
      rewrite !bindings_app, array_bindings_bindings,
        general_bindings_bindings.
      case_bool_decide; rewrite app_nil_r; reflexivity.
  - pose proof (dispatch_compact_summary a b ins out outs op s d) as H.
    cbv zeta in H. specialize (H Hb Hsize Hwd).
    eexists _, _, _. split; [exact H|]. split.
    + rewrite encoder_emit, encoder_after_resolve. reflexivity.
    + change (bindings (SetComputePipelineState ?k :: ?l))
        with (bindings l).
      rewrite !bindings_app, array_bindings_bindings,
        compact_bindings_bindings.
      rewrite app_nil_r. reflexivity.
Qed.

End Properties.

(** ** The properties on the concrete backend *)

Import Sample.

(** C1: a ScalarScalar key carries no width suffix, even when wide. *)
Lemma scalar_scalar_key_without_suffix :
  get_kernel_name ScalarScalar "Add" scalar33 true 0 1 = "ss_Addfloat32"
  /\ get_kernel_name ScalarScalar "Add" scalar33 true 0 1 <>
     category_tag ScalarScalar +:+ width_suffix true 1 +:+ "_" +:+ "Add"
     +:+ type_to_name scalar33.
Proof. split; [reflexivity|]. vm_compute. discriminate. Qed.

(** A narrow VectorScalar key with two elements per thread, and a wide
    ScalarScalar key. *)
Lemma width_suffix_on_vector_categories_witness :
  VectorScalar <> General
  /\ get_kernel_name VectorScalar "Add" matrix false 0 2 = "vsn_Addfloat32"
  /\ get_kernel_name ScalarScalar "Add" scalar33 true 0 2 = "ss_Addfloat32".
Proof.
  split; [discriminate|]. split.
  - exact (width_suffix_on_vector_categories VectorScalar "Add" matrix false
             0 2 ltac:(discriminate)).
  - exact (width_suffix_on_vector_categories ScalarScalar "Add" scalar33 true
             0 2 ltac:(discriminate)).
Defined.

(** C2: two tuples that differ in the work-per-thread only, with the same
    key. *)
Lemma work_per_thread_not_recoverable :
  (ScalarVector, 0, false, 2, "Add", matrix) <>
  (ScalarVector, 0, false, 4, "Add", matrix)
  /\ get_kernel_name ScalarVector "Add" matrix false 0 2 =
     get_kernel_name ScalarVector "Add" matrix false 0 4.
Proof. split; [intros H; inversion H|reflexivity]. Qed.

(** Both thresholds, on either side. *)
Lemma index_width_policy_witness :
  VectorVector <> General
  /\ (index_width VectorVector matrix matrix (vector 4294967296)).1 = true
  /\ (index_width VectorVector matrix matrix (vector 4294967295)).1 <> true
  /\ (index_width General matrix matrix_t (vector 2147483648)).1 = true
  /\ (index_width General matrix matrix_t (vector 2147483647)).1 <> true.
Proof.
  split; [discriminate|]. split; [|split; [|split]].
  - apply (proj2 (proj2 (index_width_policy matrix matrix (vector 4294967296)))
             VectorVector ltac:(discriminate)).
    reflexivity.
  - intros H.
    apply (proj2 (proj2 (index_width_policy matrix matrix (vector 4294967295)))
             VectorVector ltac:(discriminate)) in H.
    vm_compute in H. discriminate.
  - apply (proj1 (index_width_policy matrix matrix_t (vector 2147483648))).
    right. right. reflexivity.
  - intros H.
    apply (proj1 (index_width_policy matrix matrix_t (vector 2147483647)))
      in H.
    vm_compute in H. destruct H as [H|[H|H]]; discriminate.
Defined.

(** A matrix added to a transposed one, and to itself. *)
Lemma collapse_only_general_witness :
  maybe_collapse General matrix matrix_t matrix = ([2; 3], [3; 1], [1; 2], [3; 1])
  /\ maybe_collapse VectorVector matrix matrix matrix = ([], [], [], []).
Proof.
  split.
  - exact (proj1 (collapse_only_general General matrix matrix_t matrix)
             eq_refl).
  - exact (proj2 (collapse_only_general VectorVector matrix matrix matrix)
             ltac:(discriminate)).
Defined.

(** On hardware of 512 threads per group the General dispatch throws and
    the VectorVector dispatch does not. *)
Lemma block_size_check_witness :
  (exists d',
     binary_op_gpu_inplace [matrix; matrix_t] [matrix] "Add" stream0
       (device 512) =
     (Thrown "[Metal::binary] Must use 1024 sized block", d')
     /\ forall j, submissions (encoder d' j) = submissions (encoder (device 512) j))
  /\ (forall what d',
        binary_op_gpu_inplace [matrix; matrix] [matrix] "Add" stream0
          (device 512) <> (Thrown what, d')).
Proof.
  split.
  - apply (proj1 (block_size_check matrix matrix_t [] matrix [] "Add" stream0
                    (device 512))).
    + reflexivity.
    + vm_compute. discriminate.
    + apply positive_dimsb_true. reflexivity.
    + vm_compute. discriminate.
  - apply (proj2 (block_size_check matrix matrix [] matrix [] "Add" stream0
                    (device 512))).
    vm_compute. discriminate.
Defined.

(** C6: for two broadcast scalars of nine elements the count bound in
    slot 3 is 1, the storage element count of the output, not the element
    count 9. *)
Lemma compact_binding_is_storage_count :
  get_binary_op_type scalar33 scalar33 = ScalarScalar
  /\ size scalar33 = 9
  /\ data_size scalar33 = 1
  /\ bindings
       (encoder
          (binary_op_gpu_inplace [scalar33; scalar33] [scalar33] "Add"
             stream0 (device 1024)).2 0) =
     [SetInputArray scalar33 0; SetInputArray scalar33 1;
      SetOutputArray scalar33 2; SetBytesInt 1 3]
  /\ bindings
       (encoder
          (binary_op_gpu_inplace [scalar33; scalar33] [scalar33] "Add"
             stream0 (device 1024)).2 0) <>
     [SetInputArray scalar33 0; SetInputArray scalar33 1;
      SetOutputArray scalar33 2; SetBytesInt (to_int32 (size scalar33)) 3].
Proof.
  split; [reflexivity|]. split; [reflexivity|]. split; [reflexivity|].
  split; [reflexivity|]. vm_compute. discriminate.
Qed.

(** Two outputs and a collapsed rank of 5: eight bindings. *)
Lemma argument_binding_order_witness :
  exists r d' cmds,
    binary_op_gpu_inplace [tensor5; tensor5_t] [tensor5; matrix] "DivMod"
      stream0 (device 1024) = (r, d')
    /\ encoder d' 0 = encoder (device 1024) 0 ++ cmds
    /\ bindings cmds =
       [SetInputArray tensor5 0; SetInputArray tensor5_t 1;
        SetOutputArray tensor5 2; SetOutputArray matrix 3;
        SetVectorBytes [2; 2; 2; 2; 6] 4; SetVectorBytes [48; 24; 12; 6; 1] 5;
        SetVectorBytes [1; 2; 4; 8; 16] 6; SetBytesInt 5 7].
Proof.
  destruct (argument_binding_order tensor5 tensor5_t [] tensor5 [matrix]
              "DivMod" stream0 (device 1024))
    as (r & d' & cmds & E & He & Hb).
  - vm_compute. discriminate.
  - apply well_definedb_true. reflexivity.
  - exists r, d', cmds. repeat split; assumption.
Defined.

(** Rank 5, 96 elements, two elements per thread: the grid is
    (ceiling(6/2), 2, 96/12). *)
Lemma general_launch_geometry_witness :
  exists d' cmds,
    binary_op_gpu_inplace [tensor5; tensor5_t] [tensor5] "Add" stream0
      (device 1024) = (Returned tt, d')
    /\ encoder d' 0 = encoder (device 1024) 0 ++ cmds
    /\ submissions cmds = [(MTL_Size 3 2 8, MTL_Size 3 2 1)].
Proof.
  destruct (general_launch_geometry tensor5 tensor5_t [] tensor5 [] "Add"
              stream0 (device 1024))
    as (d' & cmds & E & He & Hs).
  - reflexivity.
  - vm_compute. discriminate.
  - apply positive_dimsb_true. reflexivity.
  - reflexivity.
  - exists d', cmds. repeat split; assumption.
Defined.

(** C8: for two broadcast scalars of nine elements one thread is
    launched, for the one stored element, not the nine of the element
    count. *)
Lemma compact_threads_follow_storage_count :
  get_binary_op_type scalar33 scalar33 = ScalarScalar
  /\ size scalar33 = 9
  /\ dispatch_work_per_thread scalar33 scalar33 scalar33 = 1
  /\ submissions
       (encoder
          (binary_op_gpu_inplace [scalar33; scalar33] [scalar33] "Add"
             stream0 (device 1024)).2 0) =
     [(MTL_Size 1 1 1, MTL_Size 1 1 1)]
  /\ MTL_Size 1 1 1 <>
     MTL_Size
       (ceiling (size scalar33)
          (dispatch_work_per_thread scalar33 scalar33 scalar33)) 1 1.
Proof.
  split; [reflexivity|]. split; [reflexivity|]. split; [reflexivity|].
  split; [reflexivity|]. vm_compute. discriminate.
Qed.

(** A million contiguous elements plus a scalar: VectorScalar, 500000
    threads in groups of 1024. *)
Lemma compact_launch_geometry_witness :
  exists d' cmds,
    binary_op_gpu_inplace [vector 1000000; dense []] [vector 1000000] "Add"
      stream0 (device 1024) = (Returned tt, d')
    /\ encoder d' 0 = encoder (device 1024) 0 ++ cmds
    /\ submissions cmds = [(MTL_Size 500000 1 1, MTL_Size 1024 1 1)].
Proof.
  destruct (compact_launch_geometry (vector 1000000) (dense []) []
              (vector 1000000) [] "Add" stream0 (device 1024))
    as (d' & cmds & E & He & Hs).
  - vm_compute. discriminate.
  - vm_compute. discriminate.
  - vm_compute. split; reflexivity.
  - vm_compute. split; [discriminate|reflexivity].
  - exists d', cmds. repeat split; assumption.
Defined.

(** At rank 2 the work-per-thread is not part of a General key; the
    rank is. *)
Lemma variant_key_encodes_witness :
  get_kernel_name General "Add" matrix false 2 2 =
  get_kernel_name General "Add" matrix false 2 4
  /\ get_kernel_name General "Add" matrix false 2 2 <>
     get_kernel_name General "Add" matrix false 3 2.
Proof.
  split.
  - apply (proj2 (variant_key_encodes General "Add" matrix false 2 2
                    General "Add" matrix false 2 4)).
    split; reflexivity.
  - intros E.
    apply (proj1 (variant_key_encodes General "Add" matrix false 2 2
                    General "Add" matrix false 3 2)) in E.
    destruct E as [E _]. vm_compute in E. discriminate.
Defined.

(** The Xor case. *)
Lemma eval_gpu_single_call_witness :
  eval_gpu (mk_BitwiseBinary Xor) [matrix; matrix] matrix =
  binary_op_gpu [matrix; matrix] matrix "BitwiseBinary".
Proof.
  exact (eval_gpu_single_call (mk_BitwiseBinary Xor) [matrix; matrix] matrix).
Defined.

(** ** Further properties: wrappers, keys and the command log *)

Section Coverage.

Context {Dtype Kernel KernelLibrary : Type}.
Context {backend : Backend Dtype Kernel KernelLibrary}.

Abbreviation array := (array Dtype).
Abbreviation Command := (Command Dtype Kernel).
Abbreviation Device := (Device Dtype Kernel KernelLibrary).
Abbreviation M := (@M Device).

(** *** The key *)

Lemma before_separator_append (p r : string) :
  string_all not_separator p = true ->
  before_separator (p +:+ "_" +:+ r) = p.
Proof.
  induction p as [|c p IH]; [reflexivity|].
  rewrite append_cons. simpl. intros [Hc Hp]%andb_prop.
  unfold not_separator in Hc. apply negb_true_iff in Hc. rewrite Hc.
  rewrite (IH Hp). reflexivity.
Qed.

Lemma after_separator_append (p r : string) :
  string_all not_separator p = true ->
  after_separator (p +:+ "_" +:+ r) = r.
Proof.
  induction p as [|c p IH]; [reflexivity|].
  rewrite append_cons. simpl. intros [Hc Hp]%andb_prop.
  unfold not_separator in Hc. apply negb_true_iff in Hc. rewrite Hc.
  apply (IH Hp).
Qed.

(** X1. A key splits at its first underscore: what precedes it is the
    variant part (category, rank or work-per-thread, width), what follows
    is the operator name followed by the type tag, even when the operator
    name itself has underscores. *)
Theorem key_splits_at_first_separator bopt op (a : array) large ndim
    work_per_thread :
  before_separator (get_kernel_name bopt op a large ndim work_per_thread)
  = render_fields (encoded_fields bopt large ndim work_per_thread)
  /\ after_separator (get_kernel_name bopt op a large ndim work_per_thread)
     = op +:+ type_to_name a.
Proof.
  rewrite get_kernel_name_render. split.
  - apply before_separator_append, render_no_separator.
  - apply after_separator_append, render_no_separator.
Qed.

(** *** The wrappers *)

Lemma assert_true (c : bool) : c = true -> assert c = ret tt.
Proof. intros ->. unfold assert. rewrite orb_true_r. reflexivity. Qed.

Lemma assert_ndebug (c : bool) : NDEBUG = true -> assert c = ret tt.
Proof. intros H. unfold assert. rewrite H. reflexivity. Qed.

Lemma assert_false (c : bool) (d : Device) :
  NDEBUG = false -> c = false -> assert c d = (Aborted, d).
Proof. intros H ->. unfold assert. rewrite H. reflexivity. Qed.

Lemma assert_arity (inputs : list array) :
  NDEBUG = true \/ length inputs = 2%nat ->
  assert (bool_decide (length inputs = 2%nat)) = ret tt.
Proof.
  intros [H|H].
  - apply assert_ndebug, H.
  - apply assert_true, bool_decide_eq_true_2, H.
Qed.

Lemma BINARY_GPU_run func_name (a b : array) ins out :
  NDEBUG = true \/ ins = [] ->
  BINARY_GPU func_name (a :: b :: ins) out =
  binary_op_gpu_inplace (a :: b :: ins)
    [set_binary_op_output_data a b out (get_binary_op_type a b)]
    func_name (stream_of out).
Proof.
  intros H.
  unfold BINARY_GPU, binary_op_gpu, binary_op_gpu_stream,
    binary_op_gpu_inplace_out.
  rewrite assert_arity
    by (destruct H as [H| ->]; [left; exact H|right; reflexivity]).
  reflexivity.
Qed.

Lemma BINARY_GPU_MULTI_run func_name (a b : array) ins out0 out1 outs :
  NDEBUG = true \/ ins = [] ->
  BINARY_GPU_MULTI func_name (a :: b :: ins) (out0 :: out1 :: outs) =
  binary_op_gpu_inplace (a :: b :: ins)
    (set_binary_op_output_data a b out0 (get_binary_op_type a b)
     :: set_binary_op_output_data a b out1 (get_binary_op_type a b)
     :: outs)
    func_name (stream_of out0).
Proof.
  intros H.
  unfold BINARY_GPU_MULTI, binary_op_gpu_outputs,
    binary_op_gpu_outputs_stream.
  rewrite assert_arity
    by (destruct H as [H| ->]; [left; exact H|right; reflexivity]).
  reflexivity.
Qed.

(** X2. With two inputs (or more, when [assert] is compiled out), a
    primitive defined by BINARY_GPU dispatches in place, on the stream of
    its output, with the output that [set_binary_op_output_data] has
    given its storage as the only output; inputs after the second are
    not read: the dispatch is the one of the first two inputs alone. *)
Theorem binary_gpu_dispatches_in_place func_name (a b : array) ins out :
  NDEBUG = true \/ ins = [] ->
  BINARY_GPU func_name (a :: b :: ins) out =
  binary_op_gpu_inplace [a; b]
    [set_binary_op_output_data a b out (get_binary_op_type a b)]
    func_name (stream_of out).
Proof. intros H. rewrite BINARY_GPU_run by exact H. reflexivity. Qed.

(** X3. With two inputs and at least two outputs, a primitive defined by
    BINARY_GPU_MULTI dispatches in place on the stream of its first
    output, after [set_binary_op_output_data] has given the first two
    outputs their storage; further outputs are passed on as they are. *)
Theorem binary_gpu_multi_dispatches_in_place func_name (a b : array) ins
    out0 out1 outs :
  NDEBUG = true \/ ins = [] ->
  BINARY_GPU_MULTI func_name (a :: b :: ins) (out0 :: out1 :: outs) =
  binary_op_gpu_inplace (a :: b :: ins)
    (set_binary_op_output_data a b out0 (get_binary_op_type a b)
     :: set_binary_op_output_data a b out1 (get_binary_op_type a b)
     :: outs)
    func_name (stream_of out0).
Proof. apply BINARY_GPU_MULTI_run. Qed.

(** X4. In a build with assertions, a wrapper called with a number of
    inputs other than two stops on the failed assertion before the
    device is touched: no storage is set, no kernel is looked up, no
    command is encoded. *)
Theorem wrong_arity_aborts func_name (inputs : list array) out outputs s
    (d : Device) :
  NDEBUG = false -> length inputs <> 2%nat ->
  BINARY_GPU func_name inputs out d = (Aborted, d)
  /\ binary_op_gpu_outputs_stream inputs outputs func_name s d
     = (Aborted, d).
Proof.
  intros Hn Hl.
  unfold BINARY_GPU, binary_op_gpu, binary_op_gpu_stream,
    binary_op_gpu_outputs_stream, bind.
  rewrite !(assert_false _ d Hn (bool_decide_eq_false_2 _ Hl)).
  split; reflexivity.
Qed.

(** *** What a dispatch can do to the device, whatever its arguments *)

Lemma effect_refl idx (d : Device) : effect idx d d [].
Proof. split; [symmetry; apply app_nil_r|reflexivity]. Qed.

Lemma effect_trans idx (d d1 d2 : Device) c1 c2 :
  effect idx d d1 c1 -> effect idx d1 d2 c2 -> effect idx d d2 (c1 ++ c2).
Proof.
  intros [H1 F1] [H2 F2]. split.
  - rewrite H2, H1, app_assoc. reflexivity.
  - intros j Hj. rewrite F2, F1 by exact Hj. reflexivity.
Qed.

Lemma effect_encode idx c (d : Device) : effect idx d (encode idx c d).2 [c].
Proof.
  rewrite encode_run. cbn [snd]. split.
  - apply encoder_emit.
  - intros j Hj. apply encoder_emit_ne. congruence.
Qed.

Lemma quiet_pure {A} idx (r : outcome A) : quiet idx (fun d : Device => (r, d)).
Proof. intros d. exists []. split; [apply effect_refl|reflexivity]. Qed.

Lemma quiet_vector_at {A} idx (v : list A) i :
  quiet idx (vector_at v i : M A).
Proof. unfold vector_at. destruct (v !! i); apply quiet_pure. Qed.

Lemma quiet_div_size_t idx x y : quiet idx (div_size_t x y : M Z).
Proof. unfold div_size_t. destruct (y =? 0); apply quiet_pure. Qed.

Lemma quiet_resolve idx get : quiet idx (resolve get : M Kernel).
Proof.
  intros d. exists []. unfold resolve. destruct (get (library d)).
  split; [|reflexivity]. cbn [snd].
  split; [symmetry; apply app_nil_r|reflexivity].
Qed.

Lemma quiet_encode idx (c : Command) :
  submission c = None -> quiet idx (encode idx c : M unit).
Proof.
  intros Hc d. exists [c]. split; [apply effect_encode|].
  unfold submissions. simpl. rewrite Hc. reflexivity.
Qed.

Lemma quiet_bind {A B} idx (m : M A) (k : A -> M B) :
  quiet idx m -> (forall x, quiet idx (k x)) -> quiet idx (bind m k).
Proof.
  intros Hm Hk d. destruct (Hm d) as (c1 & E1 & S1).
  unfold bind. destruct (m d) as [[x| | |] d1]; cbn [snd] in *;
    try (exists c1; split; assumption).
  destruct (Hk x d1) as (c2 & E2 & S2).
  exists (c1 ++ c2). split; [eapply effect_trans; eassumption|].
  rewrite submissions_app, S1, S2. reflexivity.
Qed.

Lemma launches_last_quiet idx (m : M unit) : quiet idx m -> launches_last idx m.
Proof. intros Hm d. destruct (Hm d) as (c & E & S). exists c. auto. Qed.

Lemma launches_last_bind {A} idx (m : M A) (k : A -> M unit) :
  quiet idx m -> (forall x, launches_last idx (k x)) ->
  launches_last idx (bind m k).
Proof.
  intros Hm Hk d. destruct (Hm d) as (c1 & E1 & S1).
  unfold bind. destruct (m d) as [[x| | |] d1]; cbn [fst snd] in *;
    try (exists c1; split; [assumption|left; assumption]).
  destruct (Hk x d1) as (c2 & E2 & S2).
  exists (c1 ++ c2). split; [eapply effect_trans; eassumption|].
  rewrite submissions_app, S1. exact S2.
Qed.

Lemma launches_last_dispatch idx grid_dims group_dims :
  launches_last idx (dispatch_threads idx grid_dims group_dims : M unit).
Proof.
  intros d. eexists. split; [apply effect_encode|].
  right. split; reflexivity.
Qed.

(** The steps of the dispatcher, one rule at a time. *)
Ltac log_step :=
  lazymatch goal with
  | |- launches_last _ (bind _ _) => apply launches_last_bind; [|intros ?]
  | |- quiet _ (bind _ _) => apply quiet_bind; [|intros ?]
  | |- launches_last _ (if ?c then _ else _) => destruct c
  | |- quiet _ (if ?c then _ else _) => destruct c
  | |- launches_last _ (match ?p with (_, _) => _ end) => destruct p
  | |- launches_last _ (dispatch_threads _ _ _) =>
      apply launches_last_dispatch
  | |- launches_last _ _ => apply launches_last_quiet
  | |- quiet _ (vector_at _ _) => apply quiet_vector_at
  | |- quiet _ (div_size_t _ _) => apply quiet_div_size_t
  | |- quiet _ (ceildiv _ _) => apply quiet_div_size_t
  | |- quiet _ (resolve _) => apply quiet_resolve
  | |- quiet _ (ret _) => apply quiet_pure
  | |- quiet _ (throw _) => apply quiet_pure
  | |- quiet _ (encode _ _) => apply quiet_encode; reflexivity
  | |- quiet _ _ =>
      progress unfold set_compute_pipeline_state, set_input_array,
        set_output_array, set_vector_bytes, set_bytes_int, set_bytes_int64
  end.

Lemma binary_op_gpu_inplace_launches_last (inputs outputs : list array) op s :
  launches_last (index s) (binary_op_gpu_inplace inputs outputs op s).
Proof. unfold binary_op_gpu_inplace. repeat log_step. Qed.

(** X5. Whatever its arguments and however it ends, a dispatch only
    appends to the encoder of its own stream: the commands already there
    stay, the encoders of the other streams are unchanged, at most one
    launch is added, and none is added unless the dispatch returns. *)
Theorem dispatch_appends_to_own_stream (inputs outputs : list array) op s
    (d : Device) :
  exists r d' cmds,
    binary_op_gpu_inplace inputs outputs op s d = (r, d')
    /\ encoder d' (index s) = encoder d (index s) ++ cmds
    /\ (forall j, j <> index s -> encoder d' j = encoder d j)
    /\ (length (submissions cmds) <= 1)%nat
    /\ (r <> Returned tt -> submissions cmds = []).
Proof.
  destruct (binary_op_gpu_inplace_launches_last inputs outputs op s d)
    as (cmds & [E F] & H).
  destruct (binary_op_gpu_inplace inputs outputs op s d) as [r d'] eqn:Er.
  cbn [fst snd] in *. exists r, d', cmds.
  split; [reflexivity|]. split; [exact E|]. split; [exact F|].
  destruct H as [H|[H1 H2]].
  - rewrite H. split; [simpl; lia|reflexivity].
  - rewrite H2. split; [lia|]. intros Hr. contradiction.
Qed.

Lemma launches_last_stays idx (m : M unit) (d : Device) :
  launches_last idx m -> stays_on_stream idx m d.
Proof.
  intros Hm. destruct (Hm d) as (cmds & [E F] & H).
  unfold stays_on_stream.
  destruct (m d) as [r d'] eqn:Er. cbn [fst snd] in *.
  exists r, d', cmds.
  split; [reflexivity|]. split; [exact E|]. split; [exact F|].
  destruct H as [H|[H1 H2]].
  - rewrite H. split; [simpl; lia|reflexivity].
  - rewrite H2. split; [lia|]. intros Hr. contradiction.
Qed.

Lemma quiet_assert idx (c : bool) : quiet idx (assert c : M unit).
Proof. unfold assert. destruct (NDEBUG || c); apply quiet_pure. Qed.

Lemma binary_op_gpu_launches_last (inputs : list array) out op :
  launches_last (index (stream_of out)) (binary_op_gpu inputs out op).
Proof.
  unfold binary_op_gpu, binary_op_gpu_stream, binary_op_gpu_inplace_out.
  cbv zeta.
  apply launches_last_bind; [apply quiet_assert|intros _].
  apply launches_last_bind; [apply quiet_vector_at|intros a].
  apply launches_last_bind; [apply quiet_vector_at|intros b].
  apply binary_op_gpu_inplace_launches_last.
Qed.

Lemma binary_op_gpu_outputs_launches_last (inputs : list array) out outs op :
  launches_last (index (stream_of out))
    (binary_op_gpu_outputs inputs (out :: outs) op).
Proof.
  change (binary_op_gpu_outputs inputs (out :: outs) op)
    with (binary_op_gpu_outputs_stream inputs (out :: outs) op
            (stream_of out)).
  unfold binary_op_gpu_outputs_stream. cbv zeta.
  apply launches_last_bind; [apply quiet_assert|intros _].
  apply launches_last_bind; [apply quiet_vector_at|intros a].
  apply launches_last_bind; [apply quiet_vector_at|intros b].
  apply launches_last_bind; [apply quiet_vector_at|intros out0].
  apply launches_last_bind; [apply quiet_vector_at|intros out1].
  apply binary_op_gpu_inplace_launches_last.
Qed.

(** X17. Evaluating a primitive, through BINARY_GPU, BINARY_GPU_MULTI or
    [BitwiseBinary::eval_gpu], with any number of inputs and however it
    ends, only appends to the encoder of the stream of its (first)
    output: the encoders of the other streams are unchanged, at most one
    launch is added, and none unless the evaluation returns. *)
Theorem evaluation_stays_on_its_stream func_name (this : BitwiseBinary)
    (inputs : list array) out outs (d : Device) :
  stays_on_stream (index (stream_of out)) (BINARY_GPU func_name inputs out) d
  /\ stays_on_stream (index (stream_of out))
       (BINARY_GPU_MULTI func_name inputs (out :: outs)) d
  /\ stays_on_stream (index (stream_of out)) (eval_gpu this inputs out) d.
Proof.
  split; [|split]; apply launches_last_stays.
  - apply binary_op_gpu_launches_last.
  - apply binary_op_gpu_outputs_launches_last.
  - unfold eval_gpu. destruct (op_ this); apply binary_op_gpu_launches_last.
Qed.

(** *** The failing thread-group check *)

(** X6. When the thread-group check of the General path fails, the
    exception leaves the work done so far in place: the kernel has been
    looked up (the provider keeps what it compiled), the encoder of the
    stream has the kernel set and every argument bound, and only the
    launch is missing. *)
Theorem failed_check_keeps_bindings (a b : array) ins out outs op s
    (d : Device) :
  get_binary_op_type a b = General -> size out <> 0 ->
  positive_dims (collapsed_shape a b out) ->
  maxTotalThreadsPerThreadgroup (dispatch_kernel a b out (out :: outs) op d)
    <> 1024 ->
  exists d',
    binary_op_gpu_inplace (a :: b :: ins) (out :: outs) op s d =
    (Thrown "[Metal::binary] Must use 1024 sized block", d')
    /\ encoder d' (index s) =
       encoder d (index s)
       ++ SetComputePipelineState (dispatch_kernel a b out (out :: outs) op d)
          :: array_bindings a b (out :: outs)
          ++ later_bindings a b out
               (Z.of_nat
                  (length (array_bindings a b (out :: outs) : list Command)))
    /\ library d' = (requested_kernel a b out (out :: outs) op (library d)).2.
Proof.
  intros Hb Hsize Hpos Hk.
  pose proof (dispatch_general_summary a b ins out outs op s d) as H.
  cbv zeta in H. specialize (H Hb Hsize Hpos).
  unfold dispatch_kernel in *. rewrite (bool_decide_true _ Hk) in H.
  eexists. split; [exact H|]. split; [|reflexivity].
  rewrite encoder_emit, encoder_after_resolve, app_nil_r.
  unfold later_bindings, collapsed_strides_a, collapsed_strides_b.
  rewrite (bool_decide_true _ Hb). reflexivity.
Qed.

(** *** Slots *)

(** X7. The slots of the arguments a dispatch binds are 0, 1, 2, ... in
    the order of binding, without gap or repetition, on either path and
    with one or two outputs. *)
Theorem binding_slots_consecutive (a b : array) ins out outs op s
    (d : Device) :
  size out <> 0 -> well_defined a b out ->
  exists r d' cmds,
    binary_op_gpu_inplace (a :: b :: ins) (out :: outs) op s d = (r, d')
    /\ encoder d' (index s) = encoder d (index s) ++ cmds
    /\ omap slot (bindings cmds) =
       seqZ 0 (Z.of_nat (length (bindings cmds))).
Proof.
  intros Hsize Hwd.
  unfold well_defined, dispatch_work_per_thread in Hwd.
  case_bool_decide as Hb.
  - pose proof (dispatch_general_summary a b ins out outs op s d) as H.
    cbv zeta in H. specialize (H Hb Hsize Hwd).
    eexists _, _, _. split; [exact H|]. split.
    + rewrite encoder_emit, encoder_after_resolve. reflexivity.
    + change (bindings (SetComputePipelineState ?k :: ?l))
        with (bindings l).
      rewrite !bindings_app, array_bindings_bindings,
        general_bindings_bindings.
      unfold general_bindings.
      case_bool_decide; destruct (3 <? _), outs as [|? [|? ?]];
        reflexivity.
  - pose proof (dispatch_compact_summary a b ins out outs op s d) as H.
    cbv zeta in H. specialize (H Hb Hsize Hwd).
    eexists _, _, _. split; [exact H|]. split.
    + rewrite encoder_emit, encoder_after_resolve. reflexivity.
    + change (bindings (SetComputePipelineState ?k :: ?l))
        with (bindings l).
      rewrite !bindings_app, array_bindings_bindings,
        compact_bindings_bindings.
      unfold compact_bindings.
      destruct (index_width _ _ _ _).1, outs as [|? [|? ?]]; reflexivity.
Qed.

(** *** Launch geometry *)

Lemma foldr_mul_app (l1 l2 : list Z) :
  foldr Z.mul 1 (l1 ++ l2) = foldr Z.mul 1 l1 * foldr Z.mul 1 l2.
Proof.
  induction l1 as [|x l1 IH]; simpl.
  - destruct (foldr Z.mul 1 l2); reflexivity.
  - rewrite IH. ring.
Qed.

Lemma foldr_mul_positive (l : list Z) :
  positive_dims l -> 0 < foldr Z.mul 1 l.
Proof.
  induction 1 as [|x l Hx _ IH]; simpl; [lia|nia].
Qed.

(** The number of elements of a shape is a multiple of the product of
    its two innermost dimensions. *)
Lemma shape_product_factor (shape_ : Shape) :
  positive_dims shape_ ->
  exists q, 0 < q
    /\ foldr Z.mul 1 shape_ = q * (last_dim shape_ * second_last_dim shape_).
Proof.
  intros Hpos. unfold positive_dims in Hpos.
  assert (shape_ = rev (rev shape_)) as E
    by (symmetry; apply rev_involutive).
  unfold last_dim, second_last_dim.
  destruct (rev shape_) as [|x [|y r]]; simpl rev in E; subst shape_.
  - exists 1. split; [lia|reflexivity].
  - exists 1. split; [lia|]. simpl. ring.
  - apply Forall_app in Hpos as [Hr _].
    apply Forall_app in Hr as [Hr _].
    exists (foldr Z.mul 1 (rev r)). split.
    + apply foldr_mul_positive, Hr.
    + rewrite !foldr_mul_app. simpl. ring.
Qed.

Lemma general_launch_submission (a b : array) ins out outs op s
    (d : Device) :
  get_binary_op_type a b = General -> size out <> 0 ->
  positive_dims (collapsed_shape a b out) ->
  maxTotalThreadsPerThreadgroup (dispatch_kernel a b out (out :: outs) op d)
    = 1024 ->
  exists d' cmds,
    binary_op_gpu_inplace (a :: b :: ins) (out :: outs) op s d =
    (Returned tt, d')
    /\ encoder d' (index s) = encoder d (index s) ++ cmds
    /\ submissions cmds =
       [(general_grid (collapsed_shape a b out) (size out)
           (dispatch_work_per_thread a b out),
         get_block_dims
           (width (general_grid (collapsed_shape a b out) (size out)
                     (dispatch_work_per_thread a b out)))
           (height (general_grid (collapsed_shape a b out) (size out)
                      (dispatch_work_per_thread a b out)))
           (depth (general_grid (collapsed_shape a b out) (size out)
                     (dispatch_work_per_thread a b out))))].
Proof.
  intros Hb Hsize Hpos Hk.
  pose proof (dispatch_general_summary a b ins out outs op s d) as H.
  cbv zeta in H. specialize (H Hb Hsize Hpos).
  unfold dispatch_kernel in Hk.
  rewrite (bool_decide_false _ (fun H => H Hk)) in H.
  eexists _, _. split; [exact H|]. split.
  - rewrite encoder_emit, encoder_after_resolve. reflexivity.
  - rewrite submissions_pipeline, !submissions_app,
      array_bindings_no_submission, general_bindings_no_submission.
    reflexivity.
Qed.

Lemma general_work_per_thread (a b out : array) :
  get_binary_op_type a b = General ->
  dispatch_work_per_thread a b out = 2 \/ dispatch_work_per_thread a b out = 4.
Proof.
  intros Hb. unfold dispatch_work_per_thread.
  rewrite Hb, index_width_general. cbn [snd]. destruct (_ || _); auto.
Qed.

(** X8. Up to rank 3 the grid of a General dispatch is the collapsed
    shape itself: its width and height are the last and second-to-last
    dimension, and when the collapsed shape has as many elements as the
    output, the grid has exactly one thread per output element. *)
Theorem low_rank_grid_has_one_thread_per_element (a b : array) ins out outs
    op s (d : Device) :
  get_binary_op_type a b = General -> size out <> 0 ->
  positive_dims (collapsed_shape a b out) ->
  maxTotalThreadsPerThreadgroup (dispatch_kernel a b out (out :: outs) op d)
    = 1024 ->
  (length (collapsed_shape a b out) <= 3)%nat ->
  foldr Z.mul 1 (collapsed_shape a b out) = size out ->
  exists d' cmds grid group,
    binary_op_gpu_inplace (a :: b :: ins) (out :: outs) op s d =
    (Returned tt, d')
    /\ encoder d' (index s) = encoder d (index s) ++ cmds
    /\ submissions cmds = [(grid, group)]
    /\ width grid = last_dim (collapsed_shape a b out)
    /\ height grid = second_last_dim (collapsed_shape a b out)
    /\ volume grid = size out.
Proof.
  intros Hb Hsize Hpos Hk Hrank Hprod.
  destruct (general_launch_submission a b ins out outs op s d Hb Hsize Hpos Hk)
    as (d' & cmds & E & He & Hs).
  eexists d', cmds, _, _. split; [exact E|]. split; [exact He|].
  split; [exact Hs|].
  destruct (shape_product_factor _ Hpos) as (q & Hq & Hf).
  destruct (innermost_dims _ Hpos) as (_ & _ & H0 & H1).
  unfold general_grid, volume. cbn [width height depth].
  destruct (Z.ltb_spec 3 (Z.of_nat (length (collapsed_shape a b out))));
    [lia|].
  split; [reflexivity|]. split; [reflexivity|].
  rewrite <- Hprod, Hf, Z.div_mul by nia. ring.
Qed.

(** X9. Above rank 3 each thread of a General dispatch covers
    work-per-thread (2 or 4) elements of the innermost dimension: the
    width of the grid is the ceiling of the last dimension over the
    work-per-thread, and when the collapsed shape has as many elements as
    the output, the threads times the work-per-thread cover every output
    element, with less than one extra thread per row. *)
Theorem high_rank_grid_covers_output (a b : array) ins out outs op s
    (d : Device) :
  get_binary_op_type a b = General -> size out <> 0 ->
  positive_dims (collapsed_shape a b out) ->
  maxTotalThreadsPerThreadgroup (dispatch_kernel a b out (out :: outs) op d)
    = 1024 ->
  (3 < length (collapsed_shape a b out))%nat ->
  foldr Z.mul 1 (collapsed_shape a b out) = size out ->
  exists d' cmds grid group,
    binary_op_gpu_inplace (a :: b :: ins) (out :: outs) op s d =
    (Returned tt, d')
    /\ encoder d' (index s) = encoder d (index s) ++ cmds
    /\ submissions cmds = [(grid, group)]
    /\ width grid =
       ceiling (last_dim (collapsed_shape a b out))
         (dispatch_work_per_thread a b out)
    /\ height grid = second_last_dim (collapsed_shape a b out)
    /\ size out <= volume grid * dispatch_work_per_thread a b out
       < size out
         + dispatch_work_per_thread a b out * (height grid * depth grid).
Proof.
  intros Hb Hsize Hpos Hk Hrank Hprod.
  destruct (general_launch_submission a b ins out outs op s d Hb Hsize Hpos Hk)
    as (d' & cmds & E & He & Hs).
  eexists d', cmds, _, _. split; [exact E|]. split; [exact He|].
  split; [exact Hs|].
  destruct (shape_product_factor _ Hpos) as (q & Hq & Hf).
  destruct (innermost_dims _ Hpos) as (_ & _ & H0 & H1).
  unfold general_grid, volume. cbn [width height depth].
  destruct (Z.ltb_spec 3 (Z.of_nat (length (collapsed_shape a b out))));
    [|lia].
  split; [reflexivity|]. split; [reflexivity|].
  rewrite <- Hprod, Hf, Z.div_mul by nia.
  assert (0 < dispatch_work_per_thread a b out) as Hw
    by (destruct (general_work_per_thread a b out Hb) as [-> | ->]; lia).
  pose proof (ceiling_spec (last_dim (collapsed_shape a b out)) _ Hw) as Hc.
  nia.
Qed.

Lemma compact_launch_submission (a b : array) ins out outs op s
    (d : Device) :
  get_binary_op_type a b <> General -> size out <> 0 ->
  0 < dispatch_work_per_thread a b out < 2 ^ 31 ->
  0 <= data_size out < 2 ^ 63 ->
  exists d' cmds,
    binary_op_gpu_inplace (a :: b :: ins) (out :: outs) op s d =
    (Returned tt, d')
    /\ encoder d' (index s) = encoder d (index s) ++ cmds
    /\ bindings cmds =
       array_bindings a b (out :: outs)
       ++ compact_bindings (dispatch_large a b out) out
            (Z.of_nat
               (length (array_bindings a b (out :: outs) : list Command)))
    /\ submissions cmds =
       [(if dispatch_large a b out
         then get_2d_grid_dims (shape out) (strides out)
                (dispatch_work_per_thread a b out)
         else MTL_Size
                (ceiling (data_size out) (dispatch_work_per_thread a b out))
                1 1,
         MTL_Size
           (Z.min
              (maxTotalThreadsPerThreadgroup
                 (dispatch_kernel a b out (out :: outs) op d))
              (ceiling (data_size out) (dispatch_work_per_thread a b out)))
           1 1)].
Proof.
  unfold dispatch_work_per_thread, dispatch_large, dispatch_kernel.
  intros Hb Hsize Hwpt Hdata.
  pose proof (dispatch_compact_summary a b ins out outs op s d) as H.
  cbv zeta in H. specialize (H Hb Hsize Hwpt).
  rewrite to_size_t_small, ceiling_quotient in H by lia.
  eexists _, _. split; [exact H|]. split; [|split].
  - rewrite encoder_emit, encoder_after_resolve. reflexivity.
  - change (bindings (SetComputePipelineState ?k :: ?l)) with (bindings l).
    rewrite !bindings_app, array_bindings_bindings,
      compact_bindings_bindings.
    rewrite app_nil_r. reflexivity.
  - rewrite submissions_pipeline, !submissions_app,
      array_bindings_no_submission, compact_bindings_no_submission.
    reflexivity.
Qed.

Lemma dispatch_large_compact (a b out : array) :
  get_binary_op_type a b <> General ->
  dispatch_large a b out = (UINT32_MAX <? data_size out).
Proof.
  intros Hb. unfold dispatch_large, index_width.
  rewrite bool_decide_false by exact Hb. reflexivity.
Qed.

(** X10. A narrow dispatch of a category other than General launches a
    one-dimensional grid that covers the stored output: the threads
    times the work-per-thread reach the storage element count and exceed
    it by less than one thread's work; the thread group is never wider
    than the grid nor than the kernel's limit, and is one of the two. *)
Theorem narrow_grid_covers_storage (a b : array) ins out outs op s
    (d : Device) :
  get_binary_op_type a b <> General -> size out <> 0 ->
  0 < dispatch_work_per_thread a b out < 2 ^ 31 ->
  0 <= data_size out <= 4294967295 ->
  exists d' cmds nthreads group,
    binary_op_gpu_inplace (a :: b :: ins) (out :: outs) op s d =
    (Returned tt, d')
    /\ encoder d' (index s) = encoder d (index s) ++ cmds
    /\ submissions cmds = [(MTL_Size nthreads 1 1, MTL_Size group 1 1)]
    /\ data_size out <= nthreads * dispatch_work_per_thread a b out
       < data_size out + dispatch_work_per_thread a b out
    /\ group <= nthreads
    /\ group <=
       maxTotalThreadsPerThreadgroup
         (dispatch_kernel a b out (out :: outs) op d)
    /\ (group = nthreads
        \/ group =
           maxTotalThreadsPerThreadgroup
             (dispatch_kernel a b out (out :: outs) op d)).
Proof.
  intros Hb Hsize Hwpt Hdata.
  destruct (compact_launch_submission a b ins out outs op s d Hb Hsize Hwpt)
    as (d' & cmds & E & He & _ & Hs); [lia|].
  rewrite dispatch_large_compact in Hs by exact Hb.
  destruct (Z.ltb_spec UINT32_MAX (data_size out)) as [Hl|_];
    [unfold UINT32_MAX in Hl; lia|].
  eexists d', cmds, _, _. split; [exact E|]. split; [exact He|].
  split; [exact Hs|].
  split; [apply ceiling_spec; lia|]. lia.
Qed.

(** X11. When the stored output is not larger than what one thread
    covers, a dispatch of a category other than General launches a
    single thread, in a group of one thread (none if the kernel's limit
    is below one): this is what two single-element operands get. *)
Theorem single_thread_when_output_fits (a b : array) ins out outs op s
    (d : Device) :
  get_binary_op_type a b <> General -> size out <> 0 ->
  0 < dispatch_work_per_thread a b out < 2 ^ 31 ->
  1 <= data_size out <= dispatch_work_per_thread a b out ->
  exists d' cmds,
    binary_op_gpu_inplace (a :: b :: ins) (out :: outs) op s d =
    (Returned tt, d')
    /\ encoder d' (index s) = encoder d (index s) ++ cmds
    /\ submissions cmds =
       [(MTL_Size 1 1 1,
         MTL_Size
           (Z.min
              (maxTotalThreadsPerThreadgroup
                 (dispatch_kernel a b out (out :: outs) op d)) 1) 1 1)].
Proof.
  intros Hb Hsize Hwpt Hdata.
  destruct (compact_launch_submission a b ins out outs op s d Hb Hsize Hwpt)
    as (d' & cmds & E & He & _ & Hs); [lia|].
  rewrite dispatch_large_compact in Hs by exact Hb.
  destruct (Z.ltb_spec UINT32_MAX (data_size out)) as [Hl|_];
    [unfold UINT32_MAX in Hl; lia|].
  assert (ceiling (data_size out) (dispatch_work_per_thread a b out) = 1)
    as Hone.
  { destruct Hwpt as [Hw _].
    pose proof (ceiling_spec (data_size out) _ Hw).
    nia. }
  rewrite Hone in Hs.
  exists d', cmds. auto.
Qed.

Lemma to_int32_mod (x : Z) : to_int32 x mod 2 ^ 32 = x mod 2 ^ 32.
Proof.
  unfold to_int32. rewrite Zminus_mod_idemp_l. f_equal. lia.
Qed.

Lemma to_int32_small (x : Z) : - 2 ^ 31 <= x < 2 ^ 31 -> to_int32 x = x.
Proof. intros H. unfold to_int32. rewrite Z.mod_small by lia. lia. Qed.

Lemma to_int64_small (x : Z) : - 2 ^ 63 <= x < 2 ^ 63 -> to_int64 x = x.
Proof. intros H. unfold to_int64. rewrite Z.mod_small by lia. lia. Qed.

(** X12. The count bound last on the compact path loses nothing of the
    output's storage element count. Wide, the 64-bit value is the count.
    Narrow, the 32-bit value read as unsigned is the count; as the [int]
    it is bound as, it is the count up to 2147483647 and negative above
    (the width only turns wide above 4294967295). *)
Theorem bound_count_keeps_storage_count (a b : array) ins out outs op s
    (d : Device) :
  get_binary_op_type a b <> General -> size out <> 0 ->
  0 < dispatch_work_per_thread a b out < 2 ^ 31 ->
  0 <= data_size out < 2 ^ 63 ->
  exists d' cmds k,
    binary_op_gpu_inplace (a :: b :: ins) (out :: outs) op s d =
    (Returned tt, d')
    /\ encoder d' (index s) = encoder d (index s) ++ cmds
    /\ if dispatch_large a b out
       then last (bindings cmds) = Some (SetBytesInt64 (data_size out) k)
       else exists v,
         last (bindings cmds) = Some (SetBytesInt v k)
         /\ v mod 2 ^ 32 = data_size out
         /\ (v = data_size out <-> data_size out <= 2147483647)
         /\ (v < 0 <-> 2147483647 < data_size out).
Proof.
  intros Hb Hsize Hwpt Hdata.
  destruct (compact_launch_submission a b ins out outs op s d Hb Hsize Hwpt
              Hdata) as (d' & cmds & E & He & Hbind & _).
  eexists d', cmds, _. split; [exact E|]. split; [exact He|].
  rewrite Hbind. unfold compact_bindings.
  pose proof (dispatch_large_compact a b out Hb) as Hl.
  destruct (dispatch_large a b out).
  - rewrite last_snoc, to_int64_small by lia. reflexivity.
  - symmetry in Hl. apply Z.ltb_ge in Hl. unfold UINT32_MAX in Hl.
    eexists. split; [apply last_snoc|].
    split; [rewrite to_int32_mod; apply Z.mod_small; lia|].
    unfold to_int32.
    destruct (Z_lt_le_dec (data_size out) (2 ^ 31)) as [Hlt|Hge].
    + rewrite Z.mod_small by lia. lia.
    + replace (data_size out + 2 ^ 31)
        with (data_size out - 2 ^ 31 + 1 * 2 ^ 32) by lia.
      rewrite Z.mod_add, Z.mod_small by lia. lia.
Qed.

(** *** The key of a General dispatch *)

Lemma general_key (op : string) (a : array) (large : bool) (rank : Z) :
  get_kernel_name General op a large rank (if large then 4 else 2) =
  general_key_prefix rank large +:+ "_" +:+ op +:+ type_to_name a.
Proof.
  rewrite get_kernel_name_render.
  unfold encoded_fields, render_fields, general_key_prefix.
  destruct (rank <=? 3), large; reflexivity.
Qed.

(** X13. The kernel of a non-empty General dispatch is looked up under
    the key [g<rank>] up to rank 3 and [gn2] above, or, when wide,
    [g<rank>large] and [gn4large], followed by the underscore, the
    operator name and the type tag: the work-per-thread 4 never comes
    without [large]. The lookup goes through [get_binary_two_kernel]
    exactly when there are two outputs, the kernel it returns is the
    first command the encoder receives, and the provider is left in the
    state of that one lookup. *)
Theorem general_dispatch_key (a b : array) ins out outs op s (d : Device) :
  get_binary_op_type a b = General -> size out <> 0 ->
  positive_dims (collapsed_shape a b out) ->
  Z.of_nat (length (collapsed_shape a b out)) < 2 ^ 31 ->
  exists r d' cmds,
    binary_op_gpu_inplace (a :: b :: ins) (out :: outs) op s d = (r, d')
    /\ let key :=
         general_key_prefix (Z.of_nat (length (collapsed_shape a b out)))
           (dispatch_large a b out)
         +:+ "_" +:+ op +:+ type_to_name a in
       let lookup :=
         (if bool_decide (length (out :: outs) = 2%nat)
          then get_binary_two_kernel else get_binary_kernel)
           key (dtype a) (dtype out) op (library d) in
       encoder d' (index s) =
       encoder d (index s) ++ SetComputePipelineState lookup.1 :: cmds
       /\ library d' = lookup.2.
Proof.
  intros Hb Hsize Hpos Hrank.
  pose proof (dispatch_general_summary a b ins out outs op s d) as H.
  cbv zeta in H. specialize (H Hb Hsize Hpos).
  destruct (decide
              (maxTotalThreadsPerThreadgroup
                 (requested_kernel a b out (out :: outs) op (library d)).1
               = 1024)) as [Hk|Hk].
  - rewrite (bool_decide_false _ (fun H => H Hk)) in H.
    eexists _, _, _. split; [exact H|]. cbv zeta.
    rewrite encoder_emit, encoder_after_resolve. cbn [library emit].
    unfold requested_kernel, dispatch_large.
    rewrite Hb, index_width_general. cbn [fst snd].
    rewrite to_int32_small, general_key by lia.
    case_bool_decide; split; reflexivity.
  - rewrite (bool_decide_true _ Hk) in H.
    eexists _, _, _. split; [exact H|]. cbv zeta.
    rewrite encoder_emit, encoder_after_resolve. cbn [library emit].
    unfold requested_kernel, dispatch_large.
    rewrite Hb, index_width_general. cbn [fst snd].
    rewrite to_int32_small, general_key by lia.
    case_bool_decide; split; reflexivity.
Qed.

(** *** The key of a compact dispatch *)

Lemma compact_key bopt op (a : array) large ndim work_per_thread :
  bopt <> General ->
  get_kernel_name bopt op a large ndim work_per_thread =
  category_tag bopt
  +:+ (if bool_decide (bopt = ScalarScalar) then ""
       else width_suffix large work_per_thread)
  +:+ "_" +:+ op +:+ type_to_name a.
Proof.
  intros Hb. rewrite get_kernel_name_render.
  unfold encoded_fields, render_fields, width_suffix.
  destruct bopt; try congruence; case_bool_decide; try congruence;
    destruct large, (1 <? work_per_thread); cbn [negb andb category_tag];
    rewrite ?append_assoc; reflexivity.
Qed.

(** X14. The kernel of a non-empty dispatch of a category other than
    General is looked up under the category tag, followed (except for
    ScalarScalar) by [2] when the output stores more than 4294967295
    elements and else by [n] when [get_work_per_thread], asked with the
    type of a and the storage element count of the output, answers more
    than 1; then the underscore, the operator name and the type tag. The
    lookup goes through [get_binary_two_kernel] exactly when there are
    two outputs. *)
Theorem compact_dispatch_key (a b : array) ins out outs op s (d : Device) :
  get_binary_op_type a b <> General -> size out <> 0 ->
  0 < dispatch_work_per_thread a b out < 2 ^ 31 ->
  exists d' cmds,
    binary_op_gpu_inplace (a :: b :: ins) (out :: outs) op s d =
    (Returned tt, d')
    /\ let key :=
         category_tag (get_binary_op_type a b)
         +:+ (if bool_decide (get_binary_op_type a b = ScalarScalar) then ""
              else width_suffix (4294967295 <? data_size out)
                     (get_work_per_thread (dtype a) (data_size out)))
         +:+ "_" +:+ op +:+ type_to_name a in
       let lookup :=
         (if bool_decide (length (out :: outs) = 2%nat)
          then get_binary_two_kernel else get_binary_kernel)
           key (dtype a) (dtype out) op (library d) in
       encoder d' (index s) =
       encoder d (index s) ++ SetComputePipelineState lookup.1 :: cmds
       /\ library d' = lookup.2.
Proof.
  intros Hb Hsize Hwpt.
  pose proof (dispatch_compact_summary a b ins out outs op s d) as H.
  cbv zeta in H. specialize (H Hb Hsize Hwpt).
  cbv zeta.
  match goal with
  | |- context [?f ?key (dtype a) (dtype out) op (library d)] =>
      assert (requested_kernel a b out (out :: outs) op (library d)
              = f key (dtype a) (dtype out) op (library d)) as Hreq
  end.
  { unfold requested_kernel, collapsed_shape.
    rewrite maybe_collapse_compact by exact Hb.
    rewrite compact_key by exact Hb.
    unfold index_width. rewrite (bool_decide_false _ Hb). cbn [fst snd].
    unfold UINT32_MAX. repeat case_bool_decide; reflexivity. }
  rewrite <- Hreq.
  eexists _, _. split; [exact H|].
  rewrite encoder_emit, encoder_after_resolve. split; reflexivity.
Qed.

(** *** Empty outputs through the macros *)

(** X15. A primitive defined by BINARY_GPU or BINARY_GPU_MULTI whose
    output, once [set_binary_op_output_data] has run, has no element
    returns without touching the device: no kernel is looked up and no
    command is encoded, whatever the category and the kernel limits. *)
Theorem empty_output_is_a_no_op func_name (a b : array) ins out out1 outs
    (d : Device) :
  NDEBUG = true \/ ins = [] ->
  size (set_binary_op_output_data a b out (get_binary_op_type a b)) = 0 ->
  BINARY_GPU func_name (a :: b :: ins) out d = (Returned tt, d)
  /\ BINARY_GPU_MULTI func_name (a :: b :: ins) (out :: out1 :: outs) d
     = (Returned tt, d).
Proof.
  intros H Hsize.
  rewrite BINARY_GPU_run, BINARY_GPU_MULTI_run by exact H.
  rewrite !dispatch_empty_run by exact Hsize. split; reflexivity.
Qed.

(** *** Operators and keys *)

Lemma append_length (s1 s2 : string) :
  String.length (s1 +:+ s2) = (String.length s1 + String.length s2)%nat.
Proof.
  induction s1 as [|c s1 IH]; [reflexivity|].
  rewrite append_cons. simpl. rewrite IH. reflexivity.
Qed.

Lemma append_cancel_r (s1 s2 t : string) :
  s1 +:+ t = s2 +:+ t -> s1 = s2.
Proof.
  revert s2. induction s1 as [|c1 s1 IH]; intros [|c2 s2] E.
  - reflexivity.
  - apply (f_equal String.length) in E.
    rewrite append_nil_l, append_length in E. simpl in E. lia.
  - apply (f_equal String.length) in E.
    rewrite append_nil_l, append_length in E. simpl in E. lia.
  - rewrite !append_cons in E. injection E as -> E.
    rewrite (IH s2 E). reflexivity.
Qed.

(** X16. For arrays with the same type tag, different operator names
    give different keys, whatever the category, rank, width and
    work-per-thread on either side: two operators never share a kernel
    of one element type. *)
Theorem distinct_operators_have_distinct_keys bopt1 op1 (a1 : array) large1
    ndim1 wpt1 bopt2 op2 (a2 : array) large2 ndim2 wpt2 :
  op1 <> op2 -> type_to_name a1 = type_to_name a2 ->
  get_kernel_name bopt1 op1 a1 large1 ndim1 wpt1 <>
  get_kernel_name bopt2 op2 a2 large2 ndim2 wpt2.
Proof.
  intros Hop Ht E. rewrite !get_kernel_name_render in E.
  apply (append_split not_separator) in E as [_ E];
    try apply render_no_separator; try reflexivity.
  rewrite !append_cons, !append_nil_l, Ht in E. injection E as E.
  apply append_cancel_r in E. contradiction.
Qed.

End Coverage.

(** ** The further properties on the concrete backend *)

(** Adding a matrix to itself; and, without assertions, with a third
    input that changes nothing. *)
Lemma binary_gpu_dispatches_in_place_witness :
  BINARY_GPU "Add" [matrix; matrix] matrix =
  binary_op_gpu_inplace [matrix; matrix] [matrix] "Add" stream0
  /\ @BINARY_GPU _ _ _ backend_ndebug "Add" [matrix; matrix; matrix_t]
       matrix =
     @binary_op_gpu_inplace _ _ _ backend_ndebug [matrix; matrix] [matrix]
       "Add" stream0.
Proof.
  split.
  - exact (binary_gpu_dispatches_in_place "Add" matrix matrix [] matrix
             (or_intror eq_refl)).
  - exact (@binary_gpu_dispatches_in_place _ _ _ backend_ndebug "Add" matrix
             matrix [matrix_t] matrix (or_introl eq_refl)).
Defined.

(** Quotient and remainder of a matrix by itself. *)
Lemma binary_gpu_multi_dispatches_in_place_witness :
  BINARY_GPU_MULTI "DivMod" [matrix; matrix] [matrix; matrix] =
  binary_op_gpu_inplace [matrix; matrix] [matrix; matrix] "DivMod" stream0.
Proof.
  exact (binary_gpu_multi_dispatches_in_place "DivMod" matrix matrix [] matrix
           matrix [] (or_intror eq_refl)).
Defined.

(** One input only. *)
Lemma wrong_arity_aborts_witness :
  BINARY_GPU "Add" [matrix] matrix (device 1024) = (Aborted, device 1024)
  /\ binary_op_gpu_outputs_stream [matrix] [matrix; matrix] "Add" stream0
       (device 1024) = (Aborted, device 1024).
Proof.
  apply (wrong_arity_aborts "Add" [matrix] matrix [matrix; matrix] stream0
           (device 1024)).
  - reflexivity.
  - discriminate.
Defined.

(** The transposed addend on hardware of 512 threads per group: five
    commands stay on the encoder, and the kernel stays compiled. *)
Lemma failed_check_keeps_bindings_witness :
  exists d',
    binary_op_gpu_inplace [matrix; matrix_t] [matrix] "Add" stream0
      (device 512) =
    (Thrown "[Metal::binary] Must use 1024 sized block", d')
    /\ encoder d' 0 =
       [SetComputePipelineState ("g2_Addfloat32", 512);
        SetInputArray matrix 0; SetInputArray matrix_t 1;
        SetOutputArray matrix 2;
        SetVectorBytes [3; 1] 3; SetVectorBytes [1; 2] 4]
    /\ library d' = mk_Library 512 ["g2_Addfloat32"].
Proof.
  destruct (failed_check_keeps_bindings matrix matrix_t [] matrix [] "Add"
              stream0 (device 512)) as (d' & E & He & Hl).
  - reflexivity.
  - vm_compute. discriminate.
  - apply positive_dimsb_true. reflexivity.
  - vm_compute. discriminate.
  - exists d'. split; [exact E|]. split; [exact He|exact Hl].
Defined.

(** Two outputs at rank 5: slots 0 to 7. *)
Lemma binding_slots_consecutive_witness :
  exists r d' cmds,
    binary_op_gpu_inplace [tensor5; tensor5_t] [tensor5; matrix] "DivMod"
      stream0 (device 1024) = (r, d')
    /\ encoder d' 0 = encoder (device 1024) 0 ++ cmds
    /\ omap slot (bindings cmds) =
       seqZ 0 (Z.of_nat (length (bindings cmds))).
Proof.
  apply (binding_slots_consecutive tensor5 tensor5_t [] tensor5 [matrix]
           "DivMod" stream0 (device 1024)).
  - vm_compute. discriminate.
  - apply well_definedb_true. reflexivity.
Defined.

(** A 2 by 3 matrix and its transposed addend: a grid of 3 by 2 by 1. *)
Lemma low_rank_grid_has_one_thread_per_element_witness :
  exists d' cmds grid group,
    binary_op_gpu_inplace [matrix; matrix_t] [matrix] "Add" stream0
      (device 1024) = (Returned tt, d')
    /\ encoder d' 0 = encoder (device 1024) 0 ++ cmds
    /\ submissions cmds = [(grid, group)]
    /\ width grid = 3 /\ height grid = 2 /\ volume grid = 6.
Proof.
  destruct (low_rank_grid_has_one_thread_per_element matrix matrix_t []
              matrix [] "Add" stream0 (device 1024))
    as (d' & cmds & grid & group & E & He & Hs & Hw & Hh & Hv).
  - reflexivity.
  - vm_compute. discriminate.
  - apply positive_dimsb_true. reflexivity.
  - reflexivity.
  - vm_compute. lia.
  - reflexivity.
  - exists d', cmds, grid, group. repeat split; assumption.
Defined.

(** Rank 5 with 96 elements, two per thread: 48 threads. *)
Lemma high_rank_grid_covers_output_witness :
  exists d' cmds grid group,
    binary_op_gpu_inplace [tensor5; tensor5_t] [tensor5] "Add" stream0
      (device 1024) = (Returned tt, d')
    /\ encoder d' 0 = encoder (device 1024) 0 ++ cmds
    /\ submissions cmds = [(grid, group)]
    /\ width grid = 3 /\ height grid = 2
    /\ 96 <= volume grid * 2 < 96 + 2 * (height grid * depth grid).
Proof.
  destruct (high_rank_grid_covers_output tensor5 tensor5_t [] tensor5 []
              "Add" stream0 (device 1024))
    as (d' & cmds & grid & group & E & He & Hs & Hw & Hh & Hv).
  - reflexivity.
  - vm_compute. discriminate.
  - apply positive_dimsb_true. reflexivity.
  - reflexivity.
  - vm_compute. lia.
  - reflexivity.
  - exists d', cmds, grid, group. repeat split; try assumption.
    + apply Hv.
    + apply Hv.
Defined.

(** A million elements plus a scalar, two per thread. *)
Lemma narrow_grid_covers_storage_witness :
  exists d' cmds nthreads group,
    binary_op_gpu_inplace [vector 1000000; dense []] [vector 1000000] "Add"
      stream0 (device 1024) = (Returned tt, d')
    /\ encoder d' 0 = encoder (device 1024) 0 ++ cmds
    /\ submissions cmds = [(MTL_Size nthreads 1 1, MTL_Size group 1 1)]
    /\ 1000000 <= nthreads * 2 < 1000000 + 2
    /\ group <= nthreads
    /\ group <= 1024
    /\ (group = nthreads \/ group = 1024).
Proof.
  destruct (narrow_grid_covers_storage (vector 1000000) (dense []) []
              (vector 1000000) [] "Add" stream0 (device 1024))
    as (d' & cmds & n & g & E & He & Hs & Hc & Hg & Hl & Ho).
  - vm_compute. discriminate.
  - vm_compute. discriminate.
  - vm_compute. split; reflexivity.
  - vm_compute. split; discriminate.
  - exists d', cmds, n, g.
    split; [exact E|]. split; [exact He|]. split; [exact Hs|].
    split; [exact Hc|]. split; [exact Hg|]. split; [exact Hl|exact Ho].
Defined.

(** Two single elements broadcast to nine. *)
Lemma single_thread_when_output_fits_witness :
  exists d' cmds,
    binary_op_gpu_inplace [scalar33; scalar33] [scalar33] "Add" stream0
      (device 1024) = (Returned tt, d')
    /\ encoder d' 0 = encoder (device 1024) 0 ++ cmds
    /\ submissions cmds = [(MTL_Size 1 1 1, MTL_Size 1 1 1)].
Proof.
  destruct (single_thread_when_output_fits scalar33 scalar33 [] scalar33 []
              "Add" stream0 (device 1024)) as (d' & cmds & E & He & Hs).
  - vm_compute. discriminate.
  - vm_compute. discriminate.
  - vm_compute. split; reflexivity.
  - vm_compute. split; discriminate.
  - exists d', cmds. split; [exact E|]. split; [exact He|exact Hs].
Defined.

(** A million elements: narrow, and the count is bound as it is. *)
Lemma bound_count_keeps_storage_count_witness :
  exists d' cmds k,
    binary_op_gpu_inplace [vector 1000000; dense []] [vector 1000000] "Add"
      stream0 (device 1024) = (Returned tt, d')
    /\ encoder d' 0 = encoder (device 1024) 0 ++ cmds
    /\ exists v,
         last (bindings cmds) = Some (SetBytesInt v k)
         /\ v mod 2 ^ 32 = 1000000
         /\ (v = 1000000 <-> 1000000 <= 2147483647)
         /\ (v < 0 <-> 2147483647 < 1000000).
Proof.
  destruct (bound_count_keeps_storage_count (vector 1000000) (dense []) []
              (vector 1000000) [] "Add" stream0 (device 1024))
    as (d' & cmds & k & E & He & Hc).
  - vm_compute. discriminate.
  - vm_compute. discriminate.
  - vm_compute. split; reflexivity.
  - vm_compute. split; [discriminate|reflexivity].
  - exists d', cmds, k. split; [exact E|]. split; [exact He|exact Hc].
Defined.

(** Rank 5, narrow: the key is gn2_Addfloat32. *)
Lemma general_dispatch_key_witness :
  exists r d' cmds,
    binary_op_gpu_inplace [tensor5; tensor5_t] [tensor5] "Add" stream0
      (device 1024) = (r, d')
    /\ encoder d' 0 =
       encoder (device 1024) 0
       ++ SetComputePipelineState ("gn2_Addfloat32", 1024) :: cmds
    /\ library d' = mk_Library 1024 ["gn2_Addfloat32"].
Proof.
  destruct (general_dispatch_key tensor5 tensor5_t [] tensor5 [] "Add"
              stream0 (device 1024)) as (r & d' & cmds & E & He & Hl).
  - reflexivity.
  - vm_compute. discriminate.
  - apply positive_dimsb_true. reflexivity.
  - reflexivity.
  - exists r, d', cmds. split; [exact E|]. split; [exact He|exact Hl].
Defined.

(** A million elements plus a scalar: the key is vsn_Addfloat32. *)
Lemma compact_dispatch_key_witness :
  exists d' cmds,
    binary_op_gpu_inplace [vector 1000000; dense []] [vector 1000000] "Add"
      stream0 (device 1024) = (Returned tt, d')
    /\ encoder d' 0 =
       encoder (device 1024) 0
       ++ SetComputePipelineState ("vsn_Addfloat32", 1024) :: cmds
    /\ library d' = mk_Library 1024 ["vsn_Addfloat32"].
Proof.
  destruct (compact_dispatch_key (vector 1000000) (dense []) []
              (vector 1000000) [] "Add" stream0 (device 1024))
    as (d' & cmds & E & He & Hl).
  - vm_compute. discriminate.
  - vm_compute. discriminate.
  - vm_compute. split; reflexivity.
  - exists d', cmds. split; [exact E|]. split; [exact He|exact Hl].
Defined.

(** Adding two empty vectors. *)
Lemma empty_output_is_a_no_op_witness :
  BINARY_GPU "Add" [vector 0; vector 0] (vector 0) (device 1024) =
  (Returned tt, device 1024)
  /\ BINARY_GPU_MULTI "DivMod" [vector 0; vector 0]
       [vector 0; vector 0] (device 1024) = (Returned tt, device 1024).
Proof.
  split.
  - apply (empty_output_is_a_no_op "Add" (vector 0) (vector 0) []
             (vector 0) (vector 0) [] (device 1024)).
    + right. reflexivity.
    + reflexivity.
  - apply (empty_output_is_a_no_op "DivMod" (vector 0) (vector 0) []
             (vector 0) (vector 0) [] (device 1024)).
    + right. reflexivity.
    + reflexivity.
Defined.

(** Add and Subtract on the same matrix, in different categories. *)
Lemma distinct_operators_have_distinct_keys_witness :
  get_kernel_name VectorVector "Add" matrix false 0 2 <>
  get_kernel_name General "Subtract" matrix true 2 4.
Proof.
  apply (distinct_operators_have_distinct_keys VectorVector "Add" matrix
           false 0 2 General "Subtract" matrix true 2 4).
  - discriminate.
  - reflexivity.
Defined.

(** ** Submissions of a dispatch, on every path *)

Section Submissions.

Context {Dtype Kernel KernelLibrary : Type}.
Context {backend : Backend Dtype Kernel KernelLibrary}.

Abbreviation array := (array Dtype).
Abbreviation Command := (Command Dtype Kernel).
Abbreviation Device := (Device Dtype Kernel KernelLibrary).
Abbreviation M := (@M Device).

Lemma silent_pure {A} idx (r : outcome A) :
  silent idx (fun d : Device => (r, d)).
Proof.
  intros d. exists []. split; [apply effect_refl|]. split; reflexivity.
Qed.

Lemma silent_vector_at {A} idx (v : list A) i :
  silent idx (vector_at v i : M A).
Proof. unfold vector_at. destruct (v !! i); apply silent_pure. Qed.

Lemma silent_div_size_t idx x y : silent idx (div_size_t x y : M Z).
Proof. unfold div_size_t. destruct (y =? 0); apply silent_pure. Qed.

Lemma silent_encode idx (c : Command) :
  submission c = None -> silent idx (encode idx c : M unit).
Proof.
  intros Hc d. exists [c]. split; [apply effect_encode|].
  split; [reflexivity|].
  unfold submissions. simpl. rewrite Hc. reflexivity.
Qed.

Lemma silent_bind {A B} idx (m : M A) (k : A -> M B) :
  silent idx m -> (forall x, silent idx (k x)) -> silent idx (bind m k).
Proof.
  intros Hm Hk d. destruct (Hm d) as (c1 & E1 & L1 & S1).
  unfold bind. destruct (m d) as [[x| | |] d1]; cbn [snd] in *;
    try (exists c1; repeat split; first [apply E1 | assumption]).
  destruct (Hk x d1) as (c2 & E2 & L2 & S2).
  exists (c1 ++ c2). split; [eapply effect_trans; eassumption|].
  split; [congruence|].
  rewrite submissions_app, S1, S2. reflexivity.
Qed.

Lemma launches_exactly_bind {A} idx (m : M A) (k : A -> M unit) :
  silent idx m -> (forall x, launches_exactly idx (k x)) ->
  launches_exactly idx (bind m k).
Proof.
  intros Hm Hk d. destruct (Hm d) as (c1 & E1 & L1 & S1).
  unfold bind. destruct (m d) as [[x| | |] d1]; cbn [fst snd] in *;
    try (exists c1; split; [assumption|]; split; [assumption|];
         right; split; [discriminate|assumption]).
  destruct (Hk x d1) as (c2 & E2 & L2 & S2).
  exists (c1 ++ c2). split; [eapply effect_trans; eassumption|].
  split; [congruence|].
  rewrite submissions_app, S1. exact S2.
Qed.

Lemma launches_exactly_dispatch idx grid_dims group_dims :
  launches_exactly idx (dispatch_threads idx grid_dims group_dims : M unit).
Proof.
  intros d. eexists. split; [apply effect_encode|].
  split; [reflexivity|]. left. split; reflexivity.
Qed.

Lemma launches_exactly_throw idx what :
  launches_exactly idx (throw what : M unit).
Proof.
  intros d. exists []. split; [apply effect_refl|].
  split; [reflexivity|]. right. split; [discriminate|reflexivity].
Qed.

(** The steps of the dispatcher after the kernel lookup. *)
Ltac exact_step :=
  lazymatch goal with
  | |- launches_exactly _ (bind _ _) =>
      apply launches_exactly_bind; [|intros ?]
  | |- silent _ (bind _ _) => apply silent_bind; [|intros ?]
  | |- launches_exactly _ (if ?c then _ else _) => destruct c
  | |- silent _ (if ?c then _ else _) => destruct c
  | |- launches_exactly _ (dispatch_threads _ _ _) =>
      apply launches_exactly_dispatch
  | |- launches_exactly _ (throw _) => apply launches_exactly_throw
  | |- silent _ (vector_at _ _) => apply silent_vector_at
  | |- silent _ (div_size_t _ _) => apply silent_div_size_t
  | |- silent _ (ceildiv _ _) => apply silent_div_size_t
  | |- silent _ (ret _) => apply silent_pure
  | |- silent _ (encode _ _) => apply silent_encode; reflexivity
  | |- silent _ _ =>
      progress unfold set_compute_pipeline_state, set_input_array,
        set_output_array, set_vector_bytes, set_bytes_int, set_bytes_int64
  end.

(** What follows a kernel lookup that answered [lib]. *)
Lemma after_lookup idx (m : M unit) lib (d : Device) :
  launches_exactly idx m ->
  exists cmds,
    effect idx d (m (mk_Device lib (encoders d))).2 cmds
    /\ library (m (mk_Device lib (encoders d))).2 = lib
    /\ (((m (mk_Device lib (encoders d))).1 = Returned tt
         /\ length (submissions cmds) = 1%nat)
        \/ ((m (mk_Device lib (encoders d))).1 <> Returned tt
            /\ submissions cmds = [])).
Proof.
  intros Hm. destruct (Hm (mk_Device lib (encoders d))) as (c & E & L & S).
  exists c. split; [exact E|]. split; [exact L|exact S].
Qed.

Lemma dispatch_nonempty_submissions (a b : array) ins out outs op s
    (d : Device) :
  size out <> 0 ->
  exists cmds,
    effect (index s) d
      (binary_op_gpu_inplace (a :: b :: ins) (out :: outs) op s d).2 cmds
    /\ library (binary_op_gpu_inplace (a :: b :: ins) (out :: outs) op s d).2
       = (requested_kernel a b out (out :: outs) op (library d)).2
    /\ (((binary_op_gpu_inplace (a :: b :: ins) (out :: outs) op s d).1
         = Returned tt /\ length (submissions cmds) = 1%nat)
        \/ ((binary_op_gpu_inplace (a :: b :: ins) (out :: outs) op s d).1
            <> Returned tt /\ submissions cmds = [])).
Proof.
  intros Hsize.
  unfold requested_kernel, collapsed_shape, binary_op_gpu_inplace.
  rewrite bind_vector_at_0, bind_vector_at_1, bind_vector_at_0.
  destruct (Z.eqb_spec (size out) 0) as [|_]; [contradiction|].
  destruct (maybe_collapse (get_binary_op_type a b) a b out)
    as [[[shape_ sa] sb] so].
  destruct (index_width (get_binary_op_type a b) a b out) as [large wpt].
  cbn [fst snd].
  destruct (bool_decide (length (out :: outs) = 2%nat));
    rewrite bind_resolve; apply after_lookup; repeat exact_step.
Qed.

(** C5, as amended. A dispatch whose first output has no element returns
    at once and leaves the device as it was. A dispatch with a non-empty
    output, however it ends, only appends to the encoder of the given
    stream and leaves the kernel provider in the state of its one
    lookup; the encoders of the other streams are unchanged. It has
    added exactly one launch when it returns and none when it does not.
    It does not return when, on the General path with positive collapsed
    dimensions, the kernel does not admit exactly 1024 threads per
    group: it throws; and it returns whenever its divisions are defined
    and that check does not fail. *)
Theorem one_submission_per_dispatch (a b : array) ins out outs op s
    (d : Device) :
  (size out = 0 ->
   binary_op_gpu_inplace (a :: b :: ins) (out :: outs) op s d =
   (Returned tt, d))
  /\ (size out <> 0 ->
      exists r d' cmds,
        binary_op_gpu_inplace (a :: b :: ins) (out :: outs) op s d = (r, d')
        /\ encoder d' (index s) = encoder d (index s) ++ cmds
        /\ (forall j, j <> index s -> encoder d' j = encoder d j)
        /\ library d' =
           (requested_kernel a b out (out :: outs) op (library d)).2
        /\ (r = Returned tt -> length (submissions cmds) = 1%nat)
        /\ (r <> Returned tt -> submissions cmds = [])
        /\ (get_binary_op_type a b = General ->
            positive_dims (collapsed_shape a b out) ->
            maxTotalThreadsPerThreadgroup
              (dispatch_kernel a b out (out :: outs) op d) <> 1024 ->
            r = Thrown "[Metal::binary] Must use 1024 sized block")
        /\ (well_defined a b out ->
            ~ (get_binary_op_type a b = General
               /\ maxTotalThreadsPerThreadgroup
                    (dispatch_kernel a b out (out :: outs) op d) <> 1024) ->
            r = Returned tt)).
Proof.
  split; [apply dispatch_empty_run|].
  intros Hsize.
  destruct (dispatch_nonempty_submissions a b ins out outs op s d Hsize)
    as (cmds & [E F] & L & S).
  destruct (binary_op_gpu_inplace (a :: b :: ins) (out :: outs) op s d)
    as [r d'] eqn:Er.
  cbn [fst snd] in *. exists r, d', cmds.
  split; [reflexivity|]. split; [exact E|]. split; [exact F|].
  split; [exact L|].
  split; [intros Hr; destruct S as [[_ S]|[S _]]; [exact S|contradiction]|].
  split; [intros Hr; destruct S as [[S _]|[_ S]]; [contradiction|exact S]|].
  unfold dispatch_kernel. split.
  - intros Hb Hpos Hk.
    pose proof (dispatch_general_summary a b ins out outs op s d) as H.
    cbv zeta in H. specialize (H Hb Hsize Hpos).
    rewrite (bool_decide_true _ Hk), Er in H. congruence.
  - intros Hwd Hok.
    unfold well_defined, dispatch_work_per_thread in Hwd.
    case_bool_decide as Hb.
    + pose proof (dispatch_general_summary a b ins out outs op s d) as H.
      cbv zeta in H. specialize (H Hb Hsize Hwd).
      rewrite bool_decide_false, Er in H by (intros Hk; apply Hok; auto).
      congruence.
    + pose proof (dispatch_compact_summary a b ins out outs op s d) as H.
      cbv zeta in H. specialize (H Hb Hsize Hwd).
      rewrite Er in H. congruence.
Qed.

End Submissions.

(** C5: on hardware of 512 threads per group a General dispatch with a
    non-empty output throws and submits nothing, and yet the device has
    changed: the encoder of the stream has the kernel and the arguments,
    and the provider has compiled the kernel. *)
Lemma block_size_mismatch_submits_nothing :
  get_binary_op_type matrix matrix_t = General
  /\ size matrix = 6
  /\ (binary_op_gpu_inplace [matrix; matrix_t] [matrix] "Add" stream0
        (device 512)).1 =
     Thrown "[Metal::binary] Must use 1024 sized block"
  /\ submissions
       (encoder
          (binary_op_gpu_inplace [matrix; matrix_t] [matrix] "Add" stream0
             (device 512)).2 0) = []
  /\ length
       (encoder
          (binary_op_gpu_inplace [matrix; matrix_t] [matrix] "Add" stream0
             (device 512)).2 0) = 6%nat
  /\ encoder (device 512) 0 = []
  /\ library
       (binary_op_gpu_inplace [matrix; matrix_t] [matrix] "Add" stream0
          (device 512)).2 = mk_Library 512 ["g2_Addfloat32"]
  /\ library (device 512) = mk_Library 512 [].
Proof. repeat split. Qed.

(** An empty output; a VectorVector dispatch on hardware of 512 threads
    per group, which returns after one launch; and a General one, which
    throws after none. *)
Lemma one_submission_per_dispatch_witness :
  binary_op_gpu_inplace [vector 0; vector 0] [vector 0] "Add" stream0
    (device 1024) = (Returned tt, device 1024)
  /\ (exists d' cmds,
        binary_op_gpu_inplace [matrix; matrix] [matrix] "Add" stream0
          (device 512) = (Returned tt, d')
        /\ encoder d' 0 = encoder (device 512) 0 ++ cmds
        /\ length (submissions cmds) = 1%nat
        /\ (forall j, j <> 0 -> encoder d' j = encoder (device 512) j)
        /\ library d' = mk_Library 512 ["vv_Addfloat32"])
  /\ (exists d' cmds,
        binary_op_gpu_inplace [matrix; matrix_t] [matrix] "Add" stream0
          (device 512) =
        (Thrown "[Metal::binary] Must use 1024 sized block", d')
        /\ encoder d' 0 = encoder (device 512) 0 ++ cmds
        /\ submissions cmds = []
        /\ (forall j, j <> 0 -> encoder d' j = encoder (device 512) j)
        /\ library d' = mk_Library 512 ["g2_Addfloat32"]).
Proof.
  split; [|split].
  - apply (proj1 (one_submission_per_dispatch (vector 0) (vector 0) []
                    (vector 0) [] "Add" stream0 (device 1024))).
    reflexivity.
  - destruct (proj2 (one_submission_per_dispatch matrix matrix [] matrix []
                       "Add" stream0 (device 512)))
      as (r & d' & cmds & E & He & Hf & Hl & H1 & H0 & Ht & Hr).
    + vm_compute. discriminate.
    + assert (r = Returned tt) as ->.
      { apply Hr.
        - apply well_definedb_true. reflexivity.
        - intros [H _]. vm_compute in H. discriminate. }
      exists d', cmds. split; [exact E|]. split; [exact He|].
      split; [exact (H1 eq_refl)|]. split; [exact Hf|exact Hl].
  - destruct (proj2 (one_submission_per_dispatch matrix matrix_t [] matrix []
                       "Add" stream0 (device 512)))
      as (r & d' & cmds & E & He & Hf & Hl & H1 & H0 & Ht & Hr).
    + vm_compute. discriminate.
    + assert (r = Thrown "[Metal::binary] Must use 1024 sized block") as ->.
      { apply Ht.
        - reflexivity.
        - apply positive_dimsb_true. reflexivity.
        - vm_compute. discriminate. }
      exists d', cmds. split; [exact E|]. split; [exact He|].
      split; [apply H0; discriminate|]. split; [exact Hf|exact Hl].
Defined.
